(** * MailchimpMCP: a shallow embedding of [mailchimp_mcp_server.py]

    The server module reads its configuration from the process environment,
    defines one helper, [mailchimp_request], that performs an authenticated
    HTTP call and turns failures into exceptions, and registers five tools
    with [@mcp.tool()].  This development embeds that module in Rocq and
    proves properties of it.

    Conventions of the embedding.
    - Python values that flow through the module are JSON-shaped; they are
      the inhabitants of [json].  Python's [None] is [JNull].
    - A Python [str] is a [string]; each [ascii] stands for the code point
      of the same number, so the strings of the model are those whose code
      points lie in 0..255.
    - A Python [dict] is the list of its items in insertion order; the keys
      of a dict that Python builds are distinct, and a lookup returns the
      first item with the key.
    - A Python float is never computed with: the module only tests it for
      truth and prints it, so [JFloat] carries exactly these two
      observations.
    - A Python function that performs outbound HTTP calls is a computation
      in the monad [M], which threads the log of the calls made so far and
      either returns a value or raises a Python exception. *)

From Stdlib Require Import String Ascii List ZArith Bool Lia DecimalString.
Import ListNotations.
Local Open Scope string_scope.
Local Open Scope Z_scope.
Set Warnings "-register-all".

(* ================================================================== *)
(** ** Python values *)
(* ================================================================== *)

Inductive json : Type :=
| JNull
| JBool (b : bool)
| JInt (n : Z)
| JFloat (nonzero : bool) (repr : string)
| JStr (s : string)
| JList (items : list json)
| JDict (members : list (string * json)).

(** [bool(v)]: the truth value Python's [or] and [if] test. *)
Definition truthy (v : json) : bool :=
  match v with
  | JNull => false
  | JBool b => b
  | JInt n => negb (n =? 0)
  | JFloat nonzero _ => nonzero
  | JStr s => negb (s =? "")%string
  | JList items => match items with [] => false | _ => true end
  | JDict members => match members with [] => false | _ => true end
  end.

(** [a or b] on values that are already evaluated; the callers below only
    evaluate [b] when [a] is falsy. *)
Definition py_or (a b : json) : json := if truthy a then a else b.

(** [type(v).__name__] *)
Definition py_type_name (v : json) : string :=
  match v with
  | JNull => "NoneType"
  | JBool _ => "bool"
  | JInt _ => "int"
  | JFloat _ _ => "float"
  | JStr _ => "str"
  | JList _ => "list"
  | JDict _ => "dict"
  end.

(* ------------------------------------------------------------------ *)
(** *** [str] and [repr] *)

Definition dquote : ascii := ascii_of_nat 34.
Definition squote : ascii := ascii_of_nat 39.
Definition backslash : ascii := ascii_of_nat 92.

(** [str(n)] for an [int]. *)
Definition str_of_int (n : Z) : string := NilZero.string_of_int (Z.to_int n).

Definition hex_digit (n : nat) : ascii :=
  match n with
  | 0 => "0" | 1 => "1" | 2 => "2" | 3 => "3" | 4 => "4" | 5 => "5"
  | 6 => "6" | 7 => "7" | 8 => "8" | 9 => "9" | 10 => "a" | 11 => "b"
  | 12 => "c" | 13 => "d" | 14 => "e" | _ => "f"
  end%nat%char.

Fixpoint string_mem (c : ascii) (s : string) : bool :=
  match s with
  | EmptyString => false
  | String c' s' => Ascii.eqb c c' || string_mem c s'
  end.

(** The quote [repr] puts around a string: a single quote, unless the
    string holds a single quote and no double quote. *)
Definition repr_quote (s : string) : ascii :=
  if string_mem squote s && negb (string_mem dquote s) then dquote else squote.

(** Code points below 256 that [str.isprintable] rejects. *)
Definition unprintable (n : nat) : bool :=
  (n <? 32)%nat || (n =? 127)%nat || ((128 <=? n)%nat && (n <=? 160)%nat)
  || (n =? 173)%nat.

(** One character of [repr(s)], for the surrounding quote [q]. *)
Definition repr_char (q c : ascii) : string :=
  let n := nat_of_ascii c in
  if Ascii.eqb c q || Ascii.eqb c backslash then String backslash (String c "")
  else if (n =? 9)%nat then String backslash "t"
  else if (n =? 10)%nat then String backslash "n"
  else if (n =? 13)%nat then String backslash "r"
  else if unprintable n then
    String backslash
      (String "x" (String (hex_digit (n / 16)) (String (hex_digit (n mod 16)) "")))
  else String c "".

Fixpoint repr_chars (q : ascii) (s : string) : string :=
  match s with
  | EmptyString => ""
  | String c s' => repr_char q c ++ repr_chars q s'
  end.

(** [repr(s)] for a [str]. *)
Definition repr_str (s : string) : string :=
  let q := repr_quote s in
  String q (repr_chars q s ++ String q "").

(** [", ".join(parts)] *)
Fixpoint join_comma (parts : list string) : string :=
  match parts with
  | [] => ""
  | [p] => p
  | p :: rest => p ++ ", " ++ join_comma rest
  end.

(** [repr(v)] *)
Fixpoint py_repr (v : json) : string :=
  match v with
  | JNull => "None"
  | JBool true => "True"
  | JBool false => "False"
  | JInt n => str_of_int n
  | JFloat _ r => r
  | JStr s => repr_str s
  | JList items => "[" ++ join_comma (map py_repr items) ++ "]"
  | JDict members =>
      "{" ++ join_comma
               (map (fun kv => repr_str (fst kv) ++ ": " ++ py_repr (snd kv)) members)
          ++ "}"
  end.

(** [str(v)], which is also what an f-string field [{v}] renders. *)
Definition py_str (v : json) : string :=
  match v with
  | JStr s => s
  | _ => py_repr v
  end.

(* ------------------------------------------------------------------ *)
(** *** String helpers used by the configuration code *)

(** [s.split(sep)] for a one-character separator. *)
Fixpoint py_split (sep : ascii) (s : string) : list string :=
  match s with
  | EmptyString => [""]
  | String c s' =>
      if Ascii.eqb c sep then "" :: py_split sep s'
      else match py_split sep s' with
           | [] => [String c ""]
           | piece :: pieces => String c piece :: pieces
           end
  end.

(** [pieces[-1]] on the result of a split, which is never empty. *)
Definition py_last (pieces : list string) : string := last pieces "".

Definition hyphen : ascii := "-"%char.

(* ================================================================== *)
(** ** Exceptions and the two monads *)
(* ================================================================== *)

(** The exceptions that can leave the module's functions.  [Exception] is
    raised by the module itself, at two places in [mailchimp_request]; the
    two constructors record the place and the values its f-string
    interpolates, and [exn_message] is the text Python stores in the
    exception.  The other three are raised by built-ins the module calls. *)
Inductive exn : Type :=
| ConnectError (e : string)
| ApiError (status_code : Z) (error_detail : string)
| AttributeError (msg : string)
| TypeError (msg : string)
| JSONDecodeError.

Definition exn_class (x : exn) : string :=
  match x with
  | ConnectError _ | ApiError _ _ => "Exception"
  | AttributeError _ => "AttributeError"
  | TypeError _ => "TypeError"
  | JSONDecodeError => "JSONDecodeError"
  end.

(** [str(exc)].  The text of a [JSONDecodeError] comes from the JSON
    parser and is not modelled. *)
Definition exn_message (x : exn) : string :=
  match x with
  | ConnectError e => "Failed to connect to Mailchimp API: " ++ e
  | ApiError status_code error_detail =>
      "Mailchimp API error " ++ str_of_int status_code ++ ": " ++ error_detail
  | AttributeError msg => msg
  | TypeError msg => msg
  | JSONDecodeError => ""
  end.

Inductive result (A : Type) : Type :=
| Return (a : A)
| Raise (x : exn).
Arguments Return {A} a.
Arguments Raise {A} x.

Definition rbind {A B} (r : result A) (k : A -> result B) : result B :=
  match r with
  | Return a => k a
  | Raise x => Raise x
  end.

Notation "'let!' x ':=' r 'in' k" := (rbind r (fun x => k))
  (at level 10, x name, r at level 100, k at level 200).

(** [for x in xs: out.append(f(x))], stopping at the first exception. *)
Fixpoint rmap {A B} (f : A -> result B) (xs : list A) : result (list B) :=
  match xs with
  | [] => Return []
  | x :: xs' =>
      let! y := f x in
      let! ys := rmap f xs' in
      Return (y :: ys)
  end.

(** [d.get(key)] on an association list: the key's value, else [None]. *)
Fixpoint members_get (key : string) (members : list (string * json)) : option json :=
  match members with
  | [] => None
  | (k, v) :: rest => if (k =? key)%string then Some v else members_get key rest
  end.

Definition no_attribute_get (v : json) : exn :=
  AttributeError ("'" ++ py_type_name v ++ "' object has no attribute 'get'").

(** [v.get(key, default)]: only a [dict] has the method. *)
Definition get_default (v : json) (key : string) (default : json) : result json :=
  match v with
  | JDict members =>
      Return (match members_get key members with Some x => x | None => default end)
  | _ => Raise (no_attribute_get v)
  end.

(** [v.get(key)] *)
Definition get (v : json) (key : string) : result json := get_default v key JNull.

Fixpoint chars_of (s : string) : list json :=
  match s with
  | EmptyString => []
  | String c s' => JStr (String c "") :: chars_of s'
  end.

(** The items a [for] loop over [v] visits. *)
Definition py_iter (v : json) : result (list json) :=
  match v with
  | JList items => Return items
  | JStr s => Return (chars_of s)
  | JDict members => Return (map (fun kv => JStr (fst kv)) members)
  | _ => Raise (TypeError ("'" ++ py_type_name v ++ "' object is not iterable"))
  end.

(* ------------------------------------------------------------------ *)
(** *** The outside world: [requests] *)

(** The arguments of one [requests.request(method, url, auth=..., **kwargs)];
    the module passes either no keyword or [json=payload]. *)
Record request : Type := mk_request {
  req_method : string;
  req_url : string;
  req_auth : string * string;
  req_json : option json
}.

(** What the module reads of a [requests.Response]: [status_code], [text],
    and [json()], which is [None] here when it raises [ValueError]. *)
Record response : Type := mk_response {
  status_code : Z;
  text : string;
  json_of : option json
}.

(** One outbound call either raises a [requests.RequestException], whose
    [str] is carried, or yields a response. *)
Inductive http_outcome : Type :=
| RequestException (e : string)
| Responded (r : response).

(** The external service: it answers a request knowing the calls made
    before it, so that a repeated call may be answered differently. *)
Definition service : Type := list request -> request -> http_outcome.

(** Computations that make outbound calls: they extend the log of calls
    and return or raise.  The log survives an exception. *)
Definition M (A : Type) : Type := list request -> result A * list request.

Definition ret {A} (a : A) : M A := fun log => (Return a, log).
Definition raise {A} (x : exn) : M A := fun log => (Raise x, log).
Definition lift {A} (r : result A) : M A := fun log => (r, log).
Definition bind {A B} (m : M A) (k : A -> M B) : M B :=
  fun log =>
    match m log with
    | (Return a, log') => k a log'
    | (Raise x, log') => (Raise x, log')
    end.

Notation "x <- m ;; k" := (bind m (fun x => k))
  (at level 61, m at next level, right associativity).

(** [requests.request(...)]: ask the service, record the call. *)
Definition requests_request (upstream : service) (req : request) : M http_outcome :=
  fun log => (Return (upstream log req), (log ++ [req])%list).

(* ================================================================== *)
(** ** The server module *)
(* ================================================================== *)

(** The shape of a decorated function: its parameter names with the
    function itself, for the three arities the module uses. *)
Inductive handler : Type :=
| Handler0 (f : M json)
| Handler1 (p : string) (f : json -> M json)
| Handler4 (p1 p2 p3 p4 : string) (f : json -> json -> json -> json -> M json).

(** What [@mcp.tool()] sees of a function: [__name__], [__doc__] and the
    signature with the body. *)
Record tool : Type := mk_tool {
  tool_name : string;
  tool_doc : string;
  tool_handler : handler
}.

Definition handler_params (h : handler) : list string :=
  match h with
  | Handler0 _ => []
  | Handler1 p _ => [p]
  | Handler4 p1 p2 p3 p4 _ => [p1; p2; p3; p4]
  end.

Section Server.

(** [os.environ] when the module is loaded, and the Mailchimp service. *)
Variable environ : string -> option string.
Variable upstream : service.

(** [os.environ.get(key, default)] *)
Definition environ_get (key default : string) : string :=
  match environ key with
  | Some v => v
  | None => default
  end.

Definition MAILCHIMP_API_KEY : string :=
  environ_get "MAILCHIMP_API_KEY" "<YOUR_API_KEY>".

(** The value of [MAILCHIMP_DC] once the module-level [if] has run. *)
Definition MAILCHIMP_DC : string :=
  let dc := environ_get "MAILCHIMP_DC" "<YOUR_DC>" in
  if (dc =? "<YOUR_DC>")%string
     && negb (MAILCHIMP_API_KEY =? "")%string
     && string_mem hyphen MAILCHIMP_API_KEY
  then py_last (py_split hyphen MAILCHIMP_API_KEY)
  else dc.

Definition BASE_URL : string :=
  "https://" ++ MAILCHIMP_DC ++ ".api.mailchimp.com/3.0".

(** Lines 34-40 of [mailchimp_request]: the text put after the status
    code.  [response.json()] raising [ValueError] selects the [except]
    branch; an [AttributeError] from [.get] is not caught. *)
Definition error_detail_of (resp : response) : result json :=
  match json_of resp with
  | Some err_json =>
      let! detail := get err_json "detail" in
      if truthy detail then Return detail
      else
        let! title := get err_json "title" in
        if truthy title then Return title
        else Return (JStr (py_str err_json))
  | None => Return (py_or (JStr (text resp)) (JStr "Unknown error"))
  end.

Definition mailchimp_request (method endpoint : string) (json_kw : option json)
  : M response :=
  let url := BASE_URL ++ endpoint in
  let auth := ("anystring", MAILCHIMP_API_KEY) in
  outcome <- requests_request upstream (mk_request method url auth json_kw) ;;
  match outcome with
  | RequestException e => raise (ConnectError e)
  | Responded resp =>
      if status_code resp >=? 400 then
        error_detail <- lift (error_detail_of resp) ;;
        raise (ApiError (status_code resp) (py_str error_detail))
      else ret resp
  end.

(** [resp.json()] where the [ValueError] is not caught. *)
Definition response_json (resp : response) : result json :=
  match json_of resp with
  | Some data => Return data
  | None => Raise JSONDecodeError
  end.

(** The dict built for one campaign in the loop of [list_campaigns]. *)
Definition campaign_entry (camp : json) : result json :=
  let! id := get camp "id" in
  let! settings := get_default camp "settings" (JDict []) in
  let! title := get settings "title" in
  let! name :=
    (if truthy title then Return title
     else
       let! settings' := get_default camp "settings" (JDict []) in
       get settings' "subject_line") in
  let! status := get camp "status" in
  let! emails_sent := get camp "emails_sent" in
  Return (JDict [("id", id); ("name", name); ("status", status);
                 ("emails_sent", emails_sent)]).

Definition list_campaigns : M json :=
  resp <- mailchimp_request "GET" "/campaigns" None ;;
  data <- lift (response_json resp) ;;
  found <- lift (get_default data "campaigns" (JList [])) ;;
  camps <- lift (py_iter found) ;;
  campaigns <- lift (rmap campaign_entry camps) ;;
  ret (JList campaigns).

Definition create_campaign (list_id subject from_name reply_to : json) : M json :=
  let payload :=
    JDict [("type", JStr "regular");
           ("recipients", JDict [("list_id", list_id)]);
           ("settings", JDict [("subject_line", subject);
                               ("from_name", from_name);
                               ("reply_to", reply_to)])] in
  resp <- mailchimp_request "POST" "/campaigns" (Some payload) ;;
  campaign_info <- lift (response_json resp) ;;
  id <- lift (get campaign_info "id") ;;
  status <- lift (get_default campaign_info "status" (JStr "created")) ;;
  ret (JDict [("id", id); ("status", status)]).

Definition send_campaign (campaign_id : json) : M json :=
  _ <- mailchimp_request "POST"
         ("/campaigns/" ++ py_str campaign_id ++ "/actions/send") None ;;
  ret (JStr ("Campaign " ++ py_str campaign_id ++ " has been sent.")).

(** The dict built for one workflow in the loop of [list_automations]. *)
Definition automation_entry (auto : json) : result json :=
  let! id := get auto "id" in
  let! settings := get_default auto "settings" (JDict []) in
  let! title := get settings "title" in
  let! name := (if truthy title then Return title else get auto "create_time") in
  let! status := get auto "status" in
  let! emails_sent := get auto "emails_sent" in
  Return (JDict [("id", id); ("name", name); ("status", status);
                 ("emails_sent", emails_sent)]).

Definition list_automations : M json :=
  resp <- mailchimp_request "GET" "/automations" None ;;
  data <- lift (response_json resp) ;;
  found <- lift (get_default data "automations" (JList [])) ;;
  autos <- lift (py_iter found) ;;
  automations <- lift (rmap automation_entry autos) ;;
  ret (JList automations).

Definition start_automation (workflow_id : json) : M json :=
  _ <- mailchimp_request "POST"
         ("/automations/" ++ py_str workflow_id ++ "/actions/start-all-emails") None ;;
  ret (JStr ("Automation workflow " ++ py_str workflow_id ++ " started.")).

(** The functions under [@mcp.tool()], in the order the module defines
    them. *)
Definition tool_definitions : list tool :=
  [ mk_tool "list_campaigns"
      "Retrieve all email campaigns in the Mailchimp account (returns basic info for each campaign)."
      (Handler0 list_campaigns);
    mk_tool "create_campaign"
      "Create a new email campaign in Mailchimp (returns the new campaign's ID and details)."
      (Handler4 "list_id" "subject" "from_name" "reply_to" create_campaign);
    mk_tool "send_campaign"
      "Send a campaign that has been created (campaign must be ready to send)."
      (Handler1 "campaign_id" send_campaign);
    mk_tool "list_automations"
      "List all classic automation workflows in the Mailchimp account."
      (Handler0 list_automations);
    mk_tool "start_automation"
      "Start all emails in a specified automation workflow (activating the automation)."
      (Handler1 "workflow_id" start_automation) ].

End Server.

(* ================================================================== *)
(** ** The protocol core *)
(* ================================================================== *)

(** The module hands its tools to [FastMCP], which is not part of the
    repository.  The session, registry, dispatcher and error mapping below
    follow the repository's specification of that layer. *)
Module Protocol.

(** Modelled from the spec: the session states of section 4.1
    ([FastMCP]'s session is outside the repository). *)
Inductive session_state : Type := Uninitialized | Ready | Closed.

(** Modelled from the spec: the ToolDescriptor of section 3; the input
    schema is the sequence of required parameter names. *)
Record ToolDescriptor : Type := mk_descriptor {
  name : string;
  description : string;
  inputSchema : list string
}.

(** Modelled from the spec: the error kinds of section 7 that a request
    can be answered with. *)
Inductive error_kind : Type :=
| ProtocolViolation
| UnknownMethod
| UnknownTool
| InvalidParams
| ToolInvocationError
| UpstreamUnreachable.

(** Modelled from the spec: the [detail] of an ErrorObject, "upstream
    status code and body" (section 3). *)
Record upstream_detail : Type := mk_detail {
  status : Z;
  body : string
}.

(** Modelled from the spec: the ErrorObject of section 3. *)
Record ErrorObject : Type := mk_error {
  kind : error_kind;
  message : string;
  detail : option upstream_detail
}.

(** Modelled from the spec: the Request of section 3. *)
Record Request : Type := mk_rpc {
  method : string;
  id : Z;
  params : json
}.

(** Modelled from the spec: what a Response carries besides the id, an
    acknowledgement, the payload of [tools/list], a tool's result, or an
    ErrorObject (sections 3 and 6). *)
Inductive payload : Type :=
| Ack
| Tools (descriptors : list ToolDescriptor)
| Result (value : json)
| Error (err : ErrorObject).

(** Modelled from the spec: the Response of section 3, correlated with its
    Request by id. *)
Record Response : Type := mk_response_to {
  response_id : Z;
  response_payload : payload
}.

(** Modelled from the spec: the Tool Registry of section 4.2, entries in
    registration order. *)
Definition Registry : Type := list (ToolDescriptor * handler).

(** Modelled from the spec: [list()] of section 4.2, all descriptors in
    registration order. *)
Definition list_tools (reg : Registry) : list ToolDescriptor := map fst reg.

(** Modelled from the spec: [lookup(name)] of section 4.2. *)
Fixpoint lookup (reg : Registry) (n : string) : option (ToolDescriptor * handler) :=
  match reg with
  | [] => None
  | entry :: rest => if (name (fst entry) =? n)%string then Some entry else lookup rest n
  end.

(** Modelled from the spec: [register(descriptor, handler)] of section
    4.2; it fails, with [None], when the name is already present. *)
Definition register (reg : Registry) (d : ToolDescriptor) (h : handler)
  : option Registry :=
  match lookup reg d.(name) with
  | Some _ => None
  | None => Some (reg ++ [(d, h)])%list
  end.

(** Modelled from the spec: the descriptor [FastMCP] derives from a
    decorated function, its name, docstring and parameters. *)
Definition descriptor_of (t : tool) : ToolDescriptor :=
  mk_descriptor (tool_name t) (tool_doc t) (handler_params (tool_handler t)).

(** Modelled from the spec: the registry is populated once at server
    start (section 2), one [register] per tool, in order. *)
Fixpoint register_all (reg : Registry) (tools : list tool) : option Registry :=
  match tools with
  | [] => Some reg
  | t :: rest =>
      match register reg (descriptor_of t) (tool_handler t) with
      | Some reg' => register_all reg' rest
      | None => None
      end
  end.

(** Modelled from the spec: the error mapping of section 4.4.  A failed
    connection is UpstreamUnreachable; an HTTP-level failure is a
    ToolInvocationError with the upstream status and the extracted
    message; any other exception of a handler is a ToolInvocationError
    without upstream detail.  The message is the exception's text. *)
Definition error_of_exn (x : exn) : ErrorObject :=
  match x with
  | ConnectError _ => mk_error UpstreamUnreachable (exn_message x) None
  | ApiError code extracted =>
      mk_error ToolInvocationError (exn_message x) (Some (mk_detail code extracted))
  | _ => mk_error ToolInvocationError (exn_message x) None
  end.

(** Modelled from the spec: parameter validation of section 4.3; a
    missing required field gives [None], otherwise the handler is applied
    to the named values. *)
Definition apply_handler (h : handler) (args : list (string * json)) : option (M json) :=
  match h with
  | Handler0 f => Some f
  | Handler1 p f =>
      match members_get p args with
      | Some a => Some (f a)
      | None => None
      end
  | Handler4 p1 p2 p3 p4 f =>
      match members_get p1 args, members_get p2 args,
            members_get p3 args, members_get p4 args with
      | Some a1, Some a2, Some a3, Some a4 => Some (f a1 a2 a3 a4)
      | _, _, _, _ => None
      end
  end.

(** Modelled from the spec: the server side of a Session (section 3),
    its state and registry, with the log of outbound calls made so far. *)
Record server : Type := mk_server {
  session : session_state;
  registry : Registry;
  calls : list request
}.

(** Modelled from the spec: the [tools/call] branch of the Dispatcher
    (section 4.3). *)
Definition call_tool (srv : server) (p : json) : payload * server :=
  match get p "name", get p "params" with
  | Return (JStr n), Return (JDict args) =>
      match lookup (registry srv) n with
      | None =>
          (Error (mk_error UnknownTool ("Unknown tool: " ++ n) None), srv)
      | Some (d, h) =>
          match apply_handler h args with
          | None =>
              (Error (mk_error InvalidParams
                        ("Missing required parameter for tool: " ++ n) None), srv)
          | Some run =>
              match run (calls srv) with
              | (Return v, log) =>
                  (Result v, mk_server (session srv) (registry srv) log)
              | (Raise x, log) =>
                  (Error (error_of_exn x), mk_server (session srv) (registry srv) log)
              end
          end
      end
  | _, _ => (Error (mk_error InvalidParams "Malformed tools/call parameters" None), srv)
  end.

(** Modelled from the spec: the Session and Dispatcher of sections 4.1
    and 4.3.  A closed session answers nothing. *)
Definition handle (srv : server) (req : Request) : option Response * server :=
  let reply p := Some (mk_response_to (id req) p) in
  match session srv with
  | Closed => (None, srv)
  | Uninitialized =>
      if (method req =? "initialize")%string
      then (reply Ack, mk_server Ready (registry srv) (calls srv))
      else (reply (Error (mk_error ProtocolViolation
                            "Request received before initialize" None)), srv)
  | Ready =>
      if (method req =? "initialize")%string then
        (reply (Error (mk_error ProtocolViolation "Session already initialized" None)), srv)
      else if (method req =? "tools/list")%string then
        (reply (Tools (list_tools (registry srv))), srv)
      else if (method req =? "tools/call")%string then
        let (p, srv') := call_tool srv (params req) in (reply p, srv')
      else
        (reply (Error (mk_error UnknownMethod ("Unknown method: " ++ method req) None)), srv)
  end.

(** Modelled from the spec: the transition to Closed of section 4.1. *)
Definition close (srv : server) : server :=
  mk_server Closed (registry srv) (calls srv).

(** Modelled from the spec: requests are processed one at a time, each
    to completion before the next (section 5). *)
Fixpoint serve (srv : server) (reqs : list Request) : server :=
  match reqs with
  | [] => srv
  | req :: rest => serve (snd (handle srv req)) rest
  end.

(** Modelled from the spec: server start (sections 2 and 4.2), the
    registry built once from the module's tools, the session
    Uninitialized. *)
Definition start (environ : string -> option string) (upstream : service)
  : option server :=
  match register_all [] (tool_definitions environ upstream) with
  | Some reg => Some (mk_server Uninitialized reg [])
  | None => None
  end.

End Protocol.

(* ================================================================== *)
(** ** Tool calls and reference definitions *)
(* ================================================================== *)

(** A call of one of the five tools with its arguments. *)
Inductive invocation : Type :=
| CallListCampaigns
| CallCreateCampaign (list_id subject from_name reply_to : json)
| CallSendCampaign (campaign_id : json)
| CallListAutomations
| CallStartAutomation (workflow_id : json).

Definition invoke (environ : string -> option string) (upstream : service)
  (c : invocation) : M json :=
  match c with
  | CallListCampaigns => list_campaigns environ upstream
  | CallCreateCampaign list_id subject from_name reply_to =>
      create_campaign environ upstream list_id subject from_name reply_to
  | CallSendCampaign campaign_id => send_campaign environ upstream campaign_id
  | CallListAutomations => list_automations environ upstream
  | CallStartAutomation workflow_id => start_automation environ upstream workflow_id
  end.

(** The request a tool call sends to the service; [invoke_log] below shows
    it is the one and only request of the call. *)
Definition outbound (environ : string -> option string) (c : invocation) : request :=
  let send method endpoint kw :=
    mk_request method (BASE_URL environ ++ endpoint)
               ("anystring", MAILCHIMP_API_KEY environ) kw in
  match c with
  | CallListCampaigns => send "GET" "/campaigns" None
  | CallCreateCampaign list_id subject from_name reply_to =>
      send "POST" "/campaigns"
        (Some (JDict [("type", JStr "regular");
                      ("recipients", JDict [("list_id", list_id)]);
                      ("settings", JDict [("subject_line", subject);
                                          ("from_name", from_name);
                                          ("reply_to", reply_to)])]))
  | CallSendCampaign campaign_id =>
      send "POST" ("/campaigns/" ++ py_str campaign_id ++ "/actions/send") None
  | CallListAutomations => send "GET" "/automations" None
  | CallStartAutomation workflow_id =>
      send "POST" ("/automations/" ++ py_str workflow_id ++ "/actions/start-all-emails")
        None
  end.

(** The [tools/call] request that names a tool call. *)
Definition rpc_of (c : invocation) (i : Z) : Protocol.Request :=
  let call n args :=
    Protocol.mk_rpc "tools/call" i (JDict [("name", JStr n); ("params", JDict args)]) in
  match c with
  | CallListCampaigns => call "list_campaigns" []
  | CallCreateCampaign list_id subject from_name reply_to =>
      call "create_campaign"
        [("list_id", list_id); ("subject", subject);
         ("from_name", from_name); ("reply_to", reply_to)]
  | CallSendCampaign campaign_id => call "send_campaign" [("campaign_id", campaign_id)]
  | CallListAutomations => call "list_automations" []
  | CallStartAutomation workflow_id =>
      call "start_automation" [("workflow_id", workflow_id)]
  end.

(** [members.get(key)] as a value. *)
Definition field (members : list (string * json)) (key : string) : json :=
  match members_get key members with
  | Some v => v
  | None => JNull
  end.

(** "Present and non-empty": the key is there and its value is truthy. *)
Definition present_nonempty (members : list (string * json)) (key : string) : bool :=
  match members_get key members with
  | Some v => truthy v
  | None => false
  end.

(** The members of an item's [settings] object, none when it is absent. *)
Definition settings_members (members : list (string * json)) : option (list (string * json)) :=
  match members_get "settings" members with
  | None => Some []
  | Some (JDict sm) => Some sm
  | Some _ => None
  end.

(** A campaign or automation object: a JSON object whose [settings], when
    present, is a JSON object. *)
Definition is_item_object (v : json) : bool :=
  match v with
  | JDict members =>
      match settings_members members with Some _ => true | None => false end
  | _ => false
  end.

(** The name of a campaign record: [settings.title] when present and
    non-empty, otherwise [settings.subject_line], null when that is absent. *)
Definition expected_campaign_name (settings : list (string * json)) : json :=
  if present_nonempty settings "title" then field settings "title"
  else field settings "subject_line".

(** The name of an automation record: [settings.title] when present and
    non-empty, otherwise the automation's [create_time]. *)
Definition expected_automation_name (auto settings : list (string * json)) : json :=
  if present_nonempty settings "title" then field settings "title"
  else field auto "create_time".


(** The extracted message as the module computes it; there is none when
    the body is JSON but not a JSON object. *)
Definition extracted_message (resp : response) : option string :=
  match json_of resp with
  | Some (JDict members) =>
      Some (if present_nonempty members "detail" then py_str (field members "detail")
            else if present_nonempty members "title" then py_str (field members "title")
            else py_repr (JDict members))
  | Some _ => None
  | None => Some (if (text resp =? "")%string then "Unknown error" else text resp)
  end.

(** The substring of [s] after its last [sep], all of [s] without one. *)
Fixpoint after_last (sep : ascii) (s : string) : string :=
  match s with
  | EmptyString => ""
  | String c s' =>
      if string_mem sep s' then after_last sep s'
      else if Ascii.eqb c sep then s' else s
  end.

(* ================================================================== *)
(** ** Sample environments, bodies and services *)
(* ================================================================== *)

(** The text of a JSON value whose strings need no escaping. *)
Fixpoint json_text (v : json) : string :=
  let quoted s := String dquote (s ++ String dquote "") in
  match v with
  | JNull => "null"
  | JBool true => "true"
  | JBool false => "false"
  | JInt n => str_of_int n
  | JFloat _ r => r
  | JStr s => quoted s
  | JList items => "[" ++ join_comma (map json_text items) ++ "]"
  | JDict members =>
      "{" ++ join_comma (map (fun kv => quoted (fst kv) ++ ": " ++ json_text (snd kv)) members)
          ++ "}"
  end.

(** A response whose body is the text of [v]. *)
Definition json_response (code : Z) (v : json) : response :=
  mk_response code (json_text v) (Some v).

(** A response whose body is not JSON. *)
Definition text_response (code : Z) (t : string) : response :=
  mk_response code t None.

Definition sample_environ (key : string) : option string :=
  if (key =? "MAILCHIMP_API_KEY")%string then Some "0123456789abcdef0123456789abcdef-us21"
  else None.

(** An environment that sets the region to the module's own placeholder. *)
Definition placeholder_environ (key : string) : option string :=
  if (key =? "MAILCHIMP_API_KEY")%string then Some "0123456789abcdef0123456789abcdef-us21"
  else if (key =? "MAILCHIMP_DC")%string then Some "<YOUR_DC>"
  else None.

Definition explicit_environ (key : string) : option string :=
  if (key =? "MAILCHIMP_API_KEY")%string then Some "0123456789abcdef0123456789abcdef-us21"
  else if (key =? "MAILCHIMP_DC")%string then Some "us6"
  else None.

(** Mailchimp's answer for a campaign that does not exist. *)
Definition not_found_response : response :=
  json_response 404
    (JDict [("title", JStr "Resource Not Found");
            ("status", JInt 404);
            ("detail", JStr "The requested resource could not be found.")]).

(** An error body with an empty "detail". *)
Definition empty_detail_response : response :=
  json_response 400
    (JDict [("title", JStr "Invalid Resource"); ("status", JInt 400);
            ("detail", JStr "")]).


(** An error body that is a JSON array. *)
Definition array_error_response : response := json_response 500 (JList []).


Definition sample_campaigns : list json :=
  [JDict [("id", JStr "42694e9e57"); ("status", JStr "sent");
          ("emails_sent", JInt 120);
          ("settings", JDict [("subject_line", JStr "Spring sale");
                              ("title", JStr "Spring newsletter")])];
   JDict [("id", JStr "f6276207cc"); ("status", JStr "save");
          ("emails_sent", JInt 0);
          ("settings", JDict [("subject_line", JStr "Welcome");
                              ("title", JStr "")])];
   JDict [("id", JStr "b93c0b8d1a"); ("status", JStr "save")]].

Definition campaigns_response : response :=
  json_response 200
    (JDict [("campaigns", JList sample_campaigns); ("total_items", JInt 3)]).

Definition automations_response : response :=
  json_response 200
    (JDict [("automations",
             JList [JDict [("id", JStr "b0a1c24f1a"); ("status", JStr "sending");
                           ("emails_sent", JInt 7);
                           ("create_time", JStr "2024-03-01T10:00:00+00:00");
                           ("settings", JDict [("title", JStr "Welcome series")])];
                    JDict [("id", JStr "c1d2e3f4a5"); ("status", JStr "paused");
                           ("emails_sent", JInt 0);
                           ("create_time", JStr "2024-05-17T08:30:00+00:00")]]);
            ("total_items", JInt 2)]).

(** A service that gives the same answer to every request. *)
Definition always (resp : response) : service := fun _ _ => Responded resp.

(** A service that cannot be reached. *)
Definition unreachable : service := fun _ _ => RequestException "Connection refused".

(** A service that fails the first request made to it and answers the
    following ones. *)
Definition flaky : service :=
  fun log _ =>
    match log with
    | [] => RequestException "Connection refused"
    | _ => Responded campaigns_response
    end.

(** The records [list_campaigns] builds from [campaigns_response]. *)
Definition sample_campaign_records : list json :=
  [JDict [("id", JStr "42694e9e57"); ("name", JStr "Spring newsletter");
          ("status", JStr "sent"); ("emails_sent", JInt 120)];
   JDict [("id", JStr "f6276207cc"); ("name", JStr "Welcome");
          ("status", JStr "save"); ("emails_sent", JInt 0)];
   JDict [("id", JStr "b93c0b8d1a"); ("name", JNull);
          ("status", JStr "save"); ("emails_sent", JNull)]].

(** The server as started in [sample_environ], and the handshake. *)
Definition sample_server (upstream : service) : Protocol.server :=
  Protocol.mk_server Protocol.Uninitialized
    (map (fun t => (Protocol.descriptor_of t, tool_handler t))
         (tool_definitions sample_environ upstream))
    [].

Definition initialize_request : Protocol.Request :=
  Protocol.mk_rpc "initialize" 0 (JDict []).

(** The tools that parse the body of a successful response with
    [resp.json()]; the other two only look at the status. *)
Definition reads_body (c : invocation) : bool :=
  match c with
  | CallListCampaigns | CallCreateCampaign _ _ _ _ | CallListAutomations => true
  | CallSendCampaign _ | CallStartAutomation _ => false
  end.

(** The sentence a tool that does not read the body returns. *)
Definition confirmation (c : invocation) : string :=
  match c with
  | CallSendCampaign campaign_id => "Campaign " ++ py_str campaign_id ++ " has been sent."
  | CallStartAutomation workflow_id =>
      "Automation workflow " ++ py_str workflow_id ++ " started."
  | _ => ""
  end.

(** An environment with nothing set. *)
Definition unset_environ (key : string) : option string := None.

(** A success without a body, as the action endpoints answer. *)
Definition no_content_response : response := text_response 204 "".

(** The answer to a campaign creation, and one without a status. *)
Definition created_response : response :=
  json_response 200
    (JDict [("id", JStr "3e06f4ec92"); ("type", JStr "regular");
            ("status", JStr "save")]).

Definition created_without_status_response : response :=
  json_response 200 (JDict [("id", JStr "3e06f4ec92")]).

(** A listing whose second campaign has a null [settings]. *)
Definition malformed_campaigns_response : response :=
  json_response 200
    (JDict [("campaigns",
             JList [JDict [("id", JStr "42694e9e57"); ("status", JStr "sent")];
                    JDict [("id", JStr "f6276207cc"); ("settings", JNull)]])]).

(** A success body without the listing key. *)
Definition empty_account_response : response :=
  json_response 200 (JDict [("total_items", JInt 0)]).

Definition sample_automations : list json :=
  [JDict [("id", JStr "b0a1c24f1a"); ("status", JStr "sending");
          ("emails_sent", JInt 7);
          ("create_time", JStr "2024-03-01T10:00:00+00:00");
          ("settings", JDict [("title", JStr "Welcome series")])];
   JDict [("id", JStr "c1d2e3f4a5"); ("status", JStr "paused");
          ("emails_sent", JInt 0);
          ("create_time", JStr "2024-05-17T08:30:00+00:00")]].

(* ================================================================== *)
(** ** The client script *)
(* ================================================================== *)

(** [mailchimp_mcp_client.py]: the body of [main] once the two context
    managers have been entered.  The session object belongs to the [mcp]
    library: what [session.initialize()] and [session.request(...)] answer
    is given from outside, as a JSON-shaped value or as an exception.  The
    script's own effects are the requests it sends and the lines it
    prints, recorded in one trace in the order they happen. *)
Module Client.

(** The exceptions the script can end with, by class: those of the
    built-ins it applies to the replies, and whatever the session raises,
    carried with its text. *)
Inductive error : Type :=
| AttributeError
| TypeError
| KeyError (key : json)
| IndexError
| SessionError (e : string).

Inductive outcome (A : Type) : Type :=
| Ok (a : A)
| Raised (x : error).
Arguments Ok {A} a.
Arguments Raised {A} x.

Definition obind {A B} (o : outcome A) (k : A -> outcome B) : outcome B :=
  match o with
  | Ok a => k a
  | Raised x => Raised x
  end.

Notation "'try!' x ':=' o 'in' k" := (obind o (fun x => k))
  (at level 10, x name, o at level 100, k at level 200).

(** [v.get(key, default)] *)
Definition get_default (v : json) (key : string) (default : json) : outcome json :=
  match v with
  | JDict members =>
      Ok (match members_get key members with Some x => x | None => default end)
  | _ => Raised AttributeError
  end.

(** The items a [for] loop or a comprehension over [v] visits. *)
Definition iter (v : json) : outcome (list json) :=
  match v with
  | JList items => Ok items
  | JStr s => Ok (chars_of s)
  | JDict members => Ok (map (fun kv => JStr (fst kv)) members)
  | _ => Raised TypeError
  end.

(** [v[key]] for a [str] key: only a dict can be indexed by one. *)
Definition getitem (v : json) (key : string) : outcome json :=
  match v with
  | JDict members =>
      match members_get key members with
      | Some x => Ok x
      | None => Raised (KeyError (JStr key))
      end
  | _ => Raised TypeError
  end.

(** [v[0]]; the keys of a JSON-shaped dict are strings, never [0]. *)
Definition first_item (v : json) : outcome json :=
  match v with
  | JList (x :: _) => Ok x
  | JList [] => Raised IndexError
  | JStr (String c _) => Ok (JStr (String c ""))
  | JStr EmptyString => Raised IndexError
  | JDict _ => Raised (KeyError (JInt 0))
  | _ => Raised TypeError
  end.

(** [len(v)] *)
Definition len (v : json) : outcome Z :=
  match v with
  | JList items => Ok (Z.of_nat (List.length items))
  | JStr s => Ok (Z.of_nat (String.length s))
  | JDict members => Ok (Z.of_nat (List.length members))
  | _ => Raised TypeError
  end.

(** [[f(x) for x in xs]] *)
Fixpoint collect {A B} (f : A -> outcome B) (xs : list A) : outcome (list B) :=
  match xs with
  | [] => Ok []
  | x :: xs' =>
      try! y := f x in
      try! ys := collect f xs' in
      Ok (y :: ys)
  end.

(** Lines 20-21: [[tool['name'] for tool in tools_response.get("tools", [])]]. *)
Definition tool_names (tools_response : json) : outcome (list json) :=
  try! tools_list := get_default tools_response "tools" (JList []) in
  try! tools := iter tools_list in
  collect (fun tool => getitem tool "name") tools.

(** Line 35: the line printed for one campaign. *)
Definition campaign_line (camp : json) : outcome string :=
  try! id := getitem camp "id" in
  try! name := getitem camp "name" in
  try! status := getitem camp "status" in
  Ok (" - ID: " ++ py_str id ++ ", Name: " ++ py_str name
      ++ ", Status: " ++ py_str status).

(** Lines 40 and 57: [items[0]['id']]. *)
Definition first_id (items : json) : outcome json :=
  try! first := first_item items in
  getitem first "id".

(** What the script does to the session. *)
Inductive interaction : Type :=
| Initialize
| Request (msg : json).

(** What the session answers. *)
Inductive reply : Type :=
| Reply (v : json)
| Fails (e : string).

Inductive event : Type :=
| Sent (i : interaction)
| Printed (line : string).

Fixpoint interactions (trace : list event) : list interaction :=
  match trace with
  | [] => []
  | Sent i :: rest => i :: interactions rest
  | Printed _ :: rest => interactions rest
  end.

(** The session: its answer may depend on what was sent before. *)
Definition session : Type := list interaction -> interaction -> reply.

Definition Run (A : Type) : Type := list event -> outcome A * list event.

Definition ret {A} (a : A) : Run A := fun trace => (Ok a, trace).
Definition lift {A} (o : outcome A) : Run A := fun trace => (o, trace).
Definition bind {A B} (m : Run A) (k : A -> Run B) : Run B :=
  fun trace =>
    match m trace with
    | (Ok a, trace') => k a trace'
    | (Raised x, trace') => (Raised x, trace')
    end.

Notation "x <~ m ;; k" := (bind m (fun x => k))
  (at level 61, m at next level, right associativity).

(** [await session.initialize()] and [await session.request(msg)]. *)
Definition await (lib : session) (i : interaction) : Run json :=
  fun trace =>
    (match lib (interactions trace) i with
     | Reply v => Ok v
     | Fails e => Raised (SessionError e)
     end, (trace ++ [Sent i])%list).

(** [print(line)]; the line is recorded without the newline that ends it. *)
Definition print (line : string) : Run unit :=
  fun trace => (Ok tt, (trace ++ [Printed line])%list).

(** [for x in xs: body(x)] *)
Fixpoint for_each {A} (body : A -> Run unit) (xs : list A) : Run unit :=
  match xs with
  | [] => ret tt
  | x :: xs' => _ <~ body x ;; for_each body xs'
  end.

Definition newline : string := String (ascii_of_nat 10) "".

Definition tools_list_request : json := JDict [("method", JStr "tools/list")].

Definition tools_call_request (tool_name : string) (params : list (string * json)) : json :=
  JDict [("method", JStr "tools/call");
         ("params", JDict [("name", JStr tool_name); ("params", JDict params)])].

Definition main (lib : session) : Run unit :=
  _ <~ await lib Initialize ;;
  _ <~ print "MCP session initialized with Mailchimp server." ;;
  tools_response <~ await lib (Request tools_list_request) ;;
  names <~ lift (tool_names tools_response) ;;
  _ <~ print ("Tools exposed by server: " ++ py_repr (JList names)) ;;
  campaigns <~ await lib (Request (tools_call_request "list_campaigns" [])) ;;
  n <~ lift (len campaigns) ;;
  _ <~ print (newline ++ "Retrieved " ++ str_of_int n ++ " campaigns from Mailchimp:") ;;
  camps <~ lift (iter campaigns) ;;
  _ <~ for_each (fun camp => line <~ lift (campaign_line camp) ;; print line) camps ;;
  _ <~ (if truthy campaigns then
          test_campaign_id <~ lift (first_id campaigns) ;;
          send_result <~ await lib (Request (tools_call_request "send_campaign"
                                               [("campaign_id", test_campaign_id)])) ;;
          print (newline ++ "Tool send_campaign result: " ++ py_str send_result)
        else ret tt) ;;
  automations <~ await lib (Request (tools_call_request "list_automations" [])) ;;
  m <~ lift (len automations) ;;
  _ <~ print (newline ++ "Found " ++ str_of_int m ++ " automation workflows.") ;;
  if truthy automations then
    workflow_id <~ lift (first_id automations) ;;
    start_msg <~ await lib (Request (tools_call_request "start_automation"
                                       [("workflow_id", workflow_id)])) ;;
    print ("start_automation result: " ++ py_str start_msg)
  else ret tt.

(** The longest sequence of interactions of a run: the handshake, the tool
    list, the campaigns, the sending of one if there is any, the
    automations, and the start of one. *)
Definition script (campaign_id workflow_id : json) (with_send : bool) : list interaction :=
  ([Initialize; Request tools_list_request;
    Request (tools_call_request "list_campaigns" [])]
   ++ (if with_send
       then [Request (tools_call_request "send_campaign" [("campaign_id", campaign_id)])]
       else [])
   ++ [Request (tools_call_request "list_automations" []);
       Request (tools_call_request "start_automation" [("workflow_id", workflow_id)])])%list.

End Client.

(** A session that answers like the server with the sample account, and
    one whose account is empty. *)
Definition sample_tools_reply : json :=
  JDict [("tools",
          JList [JDict [("name", JStr "list_campaigns")];
                 JDict [("name", JStr "create_campaign")];
                 JDict [("name", JStr "send_campaign")];
                 JDict [("name", JStr "list_automations")];
                 JDict [("name", JStr "start_automation")]])].

Definition sample_session : Client.session :=
  fun _ i =>
    match i with
    | Client.Initialize => Client.Reply JNull
    | Client.Request (JDict [("method", JStr "tools/list")]) =>
        Client.Reply sample_tools_reply
    | Client.Request (JDict [_; ("params", JDict (("name", JStr n) :: _))]) =>
        if (n =? "list_campaigns")%string then Client.Reply (JList sample_campaign_records)
        else if (n =? "send_campaign")%string
        then Client.Reply (JStr "Campaign 42694e9e57 has been sent.")
        else if (n =? "list_automations")%string then Client.Reply (JList [])
        else Client.Fails "Unknown tool"
    | _ => Client.Fails "Unknown method"
    end.

Definition empty_account_session : Client.session :=
  fun _ i =>
    match i with
    | Client.Initialize => Client.Reply JNull
    | Client.Request (JDict [("method", JStr "tools/list")]) =>
        Client.Reply sample_tools_reply
    | _ => Client.Reply (JList [])
    end.

(** A session that cannot be initialized. *)
Definition dead_session : Client.session := fun _ _ => Client.Fails "Connection closed".

(* ================================================================== *)
(** ** Properties of [mailchimp_request] *)
(* ================================================================== *)

Section RequestProperties.

Variable environ : string -> option string.
Variable upstream : service.

Local Abbreviation request_for method endpoint kw :=
  (mk_request method (BASE_URL environ ++ endpoint)
              ("anystring", MAILCHIMP_API_KEY environ) kw).

(** One call of [mailchimp_request], written out: the service is asked
    once, and the outcome decides between the two [raise] statements and
    the [return]. *)
Lemma mailchimp_request_unfold method endpoint kw log :
  mailchimp_request environ upstream method endpoint kw log =
  (match upstream log (request_for method endpoint kw) with
   | RequestException e => Raise (ConnectError e)
   | Responded resp =>
       if status_code resp >=? 400 then
         match error_detail_of resp with
         | Return d => Raise (ApiError (status_code resp) (py_str d))
         | Raise x => Raise x
         end
       else Return resp
   end,
   (log ++ [request_for method endpoint kw])%list).
Proof.
  unfold mailchimp_request, bind, requests_request, raise, ret, lift.
  destruct (upstream log _) as [e | resp]; [reflexivity |].
  destruct (status_code resp >=? 400); [| reflexivity].
  destruct (error_detail_of resp); reflexivity.
Qed.

Lemma mailchimp_request_log method endpoint kw log :
  snd (mailchimp_request environ upstream method endpoint kw log) =
  (log ++ [request_for method endpoint kw])%list.
Proof. rewrite mailchimp_request_unfold. reflexivity. Qed.

Lemma geb_400_true n : n >= 400 -> (n >=? 400) = true.
Proof. intros H. apply Z.geb_le. lia. Qed.

Lemma geb_400_false n : n < 400 -> (n >=? 400) = false.
Proof.
  intros H. destruct (n >=? 400) eqn:E; [| reflexivity].
  apply Z.geb_le in E. lia.
Qed.

(** The text extracted from an error body, against [extracted_message]. *)
Lemma error_detail_of_extracted resp msg :
  extracted_message resp = Some msg ->
  exists d, error_detail_of resp = Return d /\ py_str d = msg.
Proof.
  unfold extracted_message, error_detail_of.
  destruct (json_of resp) as [[ | | | | | | members] |]; try discriminate.
  - intros H. injection H as <-.
    unfold get, get_default, rbind, present_nonempty, field.
    destruct (members_get "detail" members) as [d |] eqn:Ed.
    + destruct (truthy d) eqn:Td; [eexists; split; reflexivity |].
      destruct (members_get "title" members) as [t |] eqn:Et.
      * destruct (truthy t) eqn:Tt; eexists; split; reflexivity.
      * eexists; split; reflexivity.
    + cbn [truthy].
      destruct (members_get "title" members) as [t |] eqn:Et.
      * destruct (truthy t) eqn:Tt; eexists; split; reflexivity.
      * eexists; split; reflexivity.
  - intros H. injection H as <-.
    unfold py_or. cbn [truthy].
    destruct (text resp =? "")%string; eexists; split; reflexivity.
Qed.

(** A body that is JSON but not a JSON object makes [.get] fail: the
    [AttributeError] escapes [mailchimp_request] as it is. *)
Lemma error_detail_of_not_object resp v :
  json_of resp = Some v ->
  (forall members, v <> JDict members) ->
  error_detail_of resp = Raise (no_attribute_get v).
Proof.
  intros Hj Hv. unfold error_detail_of. rewrite Hj.
  destruct v; try reflexivity. exfalso. eapply Hv. reflexivity.
Qed.

(** Every tool call starts with its one [mailchimp_request]; whatever
    that raises is what the call raises. *)
Lemma invoke_connect_error c log e :
  upstream log (outbound environ c) = RequestException e ->
  invoke environ upstream c log =
  (Raise (ConnectError e), (log ++ [outbound environ c])%list).
Proof.
  intros H. destruct c; cbn [invoke outbound] in *;
    unfold list_campaigns, create_campaign, send_campaign, list_automations,
      start_automation, bind;
    rewrite mailchimp_request_unfold, H; reflexivity.
Qed.

Lemma invoke_http_error c log resp :
  upstream log (outbound environ c) = Responded resp ->
  status_code resp >= 400 ->
  invoke environ upstream c log =
  (match error_detail_of resp with
   | Return d => Raise (ApiError (status_code resp) (py_str d))
   | Raise x => Raise x
   end, (log ++ [outbound environ c])%list).
Proof.
  intros H Hs. apply geb_400_true in Hs.
  destruct c; cbn [invoke outbound] in *;
    unfold list_campaigns, create_campaign, send_campaign, list_automations,
      start_automation, bind;
    rewrite mailchimp_request_unfold, H, Hs;
    destruct (error_detail_of resp); reflexivity.
Qed.

(** A tool call makes exactly one outbound request, whatever happens. *)
Lemma invoke_log c log :
  snd (invoke environ upstream c log) = (log ++ [outbound environ c])%list.
Proof.
  destruct c; cbn [invoke outbound];
    unfold list_campaigns, create_campaign, send_campaign, list_automations,
      start_automation, bind, lift, ret;
    rewrite mailchimp_request_unfold;
    repeat match goal with
           | |- context [match ?x with _ => _ end] => destruct x; cbn [fst snd]
           end; reflexivity.
Qed.

End RequestProperties.

(* ================================================================== *)
(** ** Error reporting *)
(* ================================================================== *)

Section ErrorProperties.

Variable environ : string -> option string.
Variable upstream : service.

Local Abbreviation request_for method endpoint kw :=
  (mk_request method (BASE_URL environ ++ endpoint)
              ("anystring", MAILCHIMP_API_KEY environ) kw).

(** C9. [mailchimp_request] raises if and only if the outbound request
    itself fails or the response status is at least 400; a response with a
    status below 400 is returned as it is. *)
Theorem mailchimp_request_raises_iff method endpoint kw log :
  ((exists x, fst (mailchimp_request environ upstream method endpoint kw log) = Raise x)
   <->
   ((exists e, upstream log (request_for method endpoint kw) = RequestException e)
    \/ (exists resp, upstream log (request_for method endpoint kw) = Responded resp
                     /\ status_code resp >= 400)))
  /\
  (forall resp,
     upstream log (request_for method endpoint kw) = Responded resp ->
     status_code resp < 400 ->
     fst (mailchimp_request environ upstream method endpoint kw log) = Return resp).
Proof.
  rewrite mailchimp_request_unfold. cbn [fst].
  destruct (upstream log (request_for method endpoint kw)) as [e | resp] eqn:Hup.
  - split.
    + split; [intros _; left; eexists; reflexivity | intros _; eexists; reflexivity].
    + intros resp H. discriminate H.
  - destruct (Z_lt_ge_dec (status_code resp) 400) as [Hlt | Hge].
    + rewrite (geb_400_false _ Hlt). split.
      * split.
        -- intros [x Hx]. discriminate Hx.
        -- intros [[e He] | [r [Hr Hs]]]; [discriminate He |].
           injection Hr as <-. lia.
      * intros r Hr _. injection Hr as <-. reflexivity.
    + rewrite (geb_400_true _ Hge). split.
      * split.
        -- intros _. right. exists resp. split; [reflexivity | exact Hge].
        -- intros _. destruct (error_detail_of resp); eexists; reflexivity.
      * intros r Hr Hs. injection Hr as <-. lia.
Qed.

(** C1, as the module has it.  When a tool call's request is answered with
    a status of at least 400 and a JSON object whose "detail" is present
    and truthy, the call raises the module's exception, and the exception's
    message is "Mailchimp API error <status>: " followed by the string form
    of that "detail" value, which for a string is the string itself. *)
Theorem detail_message_prefixed c log resp members v :
  upstream log (outbound environ c) = Responded resp ->
  status_code resp >= 400 ->
  json_of resp = Some (JDict members) ->
  members_get "detail" members = Some v ->
  truthy v = true ->
  exists x,
    fst (invoke environ upstream c log) = Raise x
    /\ exn_class x = "Exception"
    /\ exn_message x =
       "Mailchimp API error " ++ str_of_int (status_code resp) ++ ": " ++ py_str v
    /\ (forall s, v = JStr s -> py_str v = s).
Proof.
  intros Hup Hs Hj Hd Hv.
  rewrite (invoke_http_error environ upstream c log resp Hup Hs).
  unfold error_detail_of. rewrite Hj.
  unfold get, get_default, rbind. rewrite Hd, Hv. cbn [fst].
  eexists. split; [reflexivity |]. split; [reflexivity |].
  split; [reflexivity |]. intros s ->. reflexivity.
Qed.


End ErrorProperties.

(* ------------------------------------------------------------------ *)
(** *** Concrete runs *)

Lemma mailchimp_request_raises_iff_witness :
  status_code campaigns_response < 400
  /\ fst (mailchimp_request sample_environ (always campaigns_response)
            "GET" "/campaigns" None [])
     = Return campaigns_response.
Proof.
  split; [reflexivity |].
  apply (proj2 (mailchimp_request_raises_iff sample_environ (always campaigns_response)
                  "GET" "/campaigns" None []) campaigns_response);
    reflexivity.
Defined.

(** The message of the exception is not the "detail" value: it is that
    value after the module's prefix and the status code. *)
Lemma detail_message_not_exact :
  status_code not_found_response >= 400
  /\ (exists members,
        json_of not_found_response = Some (JDict members)
        /\ members_get "detail" members
           = Some (JStr "The requested resource could not be found."))
  /\ (exists x,
        fst (invoke sample_environ (always not_found_response)
               (CallSendCampaign (JStr "abc123")) []) = Raise x
        /\ exn_message x
           = "Mailchimp API error 404: The requested resource could not be found."
        /\ exn_message x <> "The requested resource could not be found.").
Proof.
  split; [vm_compute; discriminate |].
  split; [eexists; split; reflexivity |].
  eexists. split; [vm_compute; reflexivity |].
  split; [vm_compute; reflexivity | vm_compute; discriminate].
Qed.

Lemma detail_message_prefixed_witness :
  exists x,
    fst (invoke sample_environ (always not_found_response)
           (CallSendCampaign (JStr "abc123")) []) = Raise x
    /\ exn_class x = "Exception"
    /\ exn_message x =
       "Mailchimp API error " ++ str_of_int (status_code not_found_response) ++ ": "
       ++ py_str (JStr "The requested resource could not be found.")
    /\ (forall s, JStr "The requested resource could not be found." = JStr s ->
                  py_str (JStr "The requested resource could not be found.") = s).
Proof.
  apply (detail_message_prefixed sample_environ (always not_found_response)
           (CallSendCampaign (JStr "abc123")) [] not_found_response
           [("title", JStr "Resource Not Found"); ("status", JInt 404);
            ("detail", JStr "The requested resource could not be found.")]
           (JStr "The requested resource could not be found."));
    try reflexivity.
  vm_compute. discriminate.
Defined.

(** An empty "detail" is passed over for "title". *)
Example empty_detail_falls_back_to_title :
  fst (mailchimp_request sample_environ (always empty_detail_response)
         "GET" "/campaigns" None [])
  = Raise (ApiError 400 "Invalid Resource").
Proof. vm_compute. reflexivity. Qed.



(** C3, at a 404 whose body is a JSON array.  [send_campaign] with
    [campaign_id = "abc123"] makes its one request and raises the
    [AttributeError] of [.get] on a list; neither the exception nor its
    message holds the status 404. *)
Theorem send_campaign_404_array_body :
  invoke sample_environ (always (json_response 404 (JList [])))
    (CallSendCampaign (JStr "abc123")) []
  = (Raise (AttributeError "'list' object has no attribute 'get'"),
     [mk_request "POST"
        "https://us21.api.mailchimp.com/3.0/campaigns/abc123/actions/send"
        ("anystring", "0123456789abcdef0123456789abcdef-us21") None]).
Proof. vm_compute. reflexivity. Qed.

(* ================================================================== *)
(** ** The protocol core over the module's tools *)
(* ================================================================== *)

Section ProtocolProperties.

Import Protocol.

Variable environ : string -> option string.
Variable upstream : service.

(** The registry the server starts with: one entry per decorated function,
    in the order of the module. *)
Lemma start_registry :
  start environ upstream =
  Some (mk_server Uninitialized
          (map (fun t => (descriptor_of t, tool_handler t))
               (tool_definitions environ upstream))
          []).
Proof. reflexivity. Qed.

(** No request changes the registry. *)
Lemma handle_registry srv req : registry (snd (handle srv req)) = registry srv.
Proof.
  unfold handle.
  destruct (session srv); cbn [snd]; try reflexivity.
  - destruct (method req =? "initialize")%string; reflexivity.
  - destruct (method req =? "initialize")%string; [reflexivity |].
    destruct (method req =? "tools/list")%string; [reflexivity |].
    destruct (method req =? "tools/call")%string; [| reflexivity].
    destruct (call_tool srv (params req)) as [p srv'] eqn:E. cbn [snd].
    unfold call_tool in E.
    repeat match type of E with
           | context [match ?x with _ => _ end] => destruct x
           end;
      injection E as _ <-; reflexivity.
Qed.

Lemma serve_registry reqs : forall srv, registry (serve srv reqs) = registry srv.
Proof.
  induction reqs as [| req rest IH]; intros srv; cbn [serve]; [reflexivity |].
  rewrite IH. apply handle_registry.
Qed.

(** The registry of any server reached from the start. *)
Lemma reached_registry srv0 reqs :
  start environ upstream = Some srv0 ->
  registry (serve srv0 reqs) =
  map (fun t => (descriptor_of t, tool_handler t)) (tool_definitions environ upstream).
Proof.
  rewrite start_registry. intros H. injection H as <-.
  rewrite serve_registry. reflexivity.
Qed.

(** A [tools/call] on a Ready session runs the named tool on the log of
    calls so far, and answers with its value or with the mapped error. *)
Lemma handle_call srv c i :
  session srv = Ready ->
  registry srv =
  map (fun t => (descriptor_of t, tool_handler t)) (tool_definitions environ upstream) ->
  handle srv (rpc_of c i) =
  (Some (mk_response_to i
           match fst (invoke environ upstream c (calls srv)) with
           | Return v => Result v
           | Raise x => Error (error_of_exn x)
           end),
   mk_server Ready (registry srv) (snd (invoke environ upstream c (calls srv)))).
Proof.
  intros Hs Hr. unfold handle. rewrite Hs.
  destruct c; cbn [rpc_of method params id String.eqb Ascii.eqb Bool.eqb];
    unfold call_tool; rewrite Hr;
    cbn [get get_default members_get String.eqb Ascii.eqb Bool.eqb
         tool_definitions map lookup fst snd descriptor_of name tool_name
         tool_handler apply_handler invoke];
    match goal with
    | |- context [match ?run (calls srv) with _ => _ end] =>
        destruct (run (calls srv)) as [[v | x] log]
    end; rewrite ?Hs; reflexivity.
Qed.

(** C6. On a Ready session of the started server, [tools/list] answers
    with the descriptors of the registered tools, each once and in
    registration order: list_campaigns, create_campaign, send_campaign,
    list_automations, start_automation; the session is left as it was. *)
Theorem tools_list_registration_order srv0 reqs i ps :
  start environ upstream = Some srv0 ->
  session (serve srv0 reqs) = Ready ->
  exists ds,
    handle (serve srv0 reqs) (mk_rpc "tools/list" i ps)
    = (Some (mk_response_to i (Tools ds)), serve srv0 reqs)
    /\ ds = list_tools (registry srv0)
    /\ ds = map descriptor_of (tool_definitions environ upstream)
    /\ map name ds = ["list_campaigns"; "create_campaign"; "send_campaign";
                      "list_automations"; "start_automation"]
    /\ NoDup (map name ds).
Proof.
  intros Hstart Hready.
  exists (list_tools (registry srv0)).
  split.
  - unfold handle. rewrite Hready. cbn [method String.eqb Ascii.eqb Bool.eqb id].
    rewrite serve_registry. reflexivity.
  - split; [reflexivity |].
    rewrite start_registry in Hstart. injection Hstart as <-.
    split; [reflexivity |]. split; [reflexivity |].
    cbn. repeat constructor; cbn; intuition discriminate.
Qed.

(** C7. Two [tools/list] requests in succession on a Ready session are
    answered with the same descriptor sequence and leave the server as it
    was; and no sequence of requests changes the registry. *)
Theorem tools_list_idempotent srv i1 p1 i2 p2 :
  session srv = Ready ->
  (exists ds,
     handle srv (mk_rpc "tools/list" i1 p1) = (Some (mk_response_to i1 (Tools ds)), srv)
     /\ handle (snd (handle srv (mk_rpc "tools/list" i1 p1))) (mk_rpc "tools/list" i2 p2)
        = (Some (mk_response_to i2 (Tools ds)), srv))
  /\ (forall reqs, registry (serve srv reqs) = registry srv).
Proof.
  intros Hready.
  assert (H : forall i p, handle srv (mk_rpc "tools/list" i p)
                          = (Some (mk_response_to i (Tools (list_tools (registry srv)))), srv)).
  { intros i p. unfold handle. rewrite Hready. reflexivity. }
  split.
  - exists (list_tools (registry srv)). rewrite (H i1 p1). cbn [snd].
    rewrite (H i2 p2). split; reflexivity.
  - intros reqs. apply serve_registry.
Qed.

(** C4. When the outbound request of a tool call fails to reach the
    service, the call raises the module's connection exception after that
    single request, and the response is an ErrorObject of kind
    UpstreamUnreachable; the log of outbound calls grows by exactly that
    one request, so nothing was retried. *)
Theorem connect_failure_unreachable_no_retry srv0 reqs c i e :
  start environ upstream = Some srv0 ->
  session (serve srv0 reqs) = Ready ->
  upstream (calls (serve srv0 reqs)) (outbound environ c) = RequestException e ->
  invoke environ upstream c (calls (serve srv0 reqs))
  = (Raise (ConnectError e), (calls (serve srv0 reqs) ++ [outbound environ c])%list)
  /\ exists err srv',
       handle (serve srv0 reqs) (rpc_of c i) = (Some (mk_response_to i (Error err)), srv')
       /\ kind err = UpstreamUnreachable
       /\ message err = "Failed to connect to Mailchimp API: " ++ e
       /\ calls srv' = (calls (serve srv0 reqs) ++ [outbound environ c])%list.
Proof.
  intros Hstart Hready Hup.
  pose proof (invoke_connect_error environ upstream c _ e Hup) as Hinv.
  split; [exact Hinv |].
  rewrite (handle_call (serve srv0 reqs) c i Hready (reached_registry srv0 reqs Hstart)).
  rewrite Hinv. cbn [fst snd].
  eexists. eexists. split; [reflexivity |].
  split; [reflexivity |]. split; reflexivity.
Qed.

(** The 404 scenario of [send_campaign] on a body that is not JSON or is a
    JSON object: the response is a ToolInvocationError whose detail holds
    the status 404 and the extracted message. *)
Lemma send_campaign_404_reports_status srv0 reqs i resp msg :
  start environ upstream = Some srv0 ->
  session (serve srv0 reqs) = Ready ->
  upstream (calls (serve srv0 reqs)) (outbound environ (CallSendCampaign (JStr "abc123")))
  = Responded resp ->
  status_code resp = 404 ->
  extracted_message resp = Some msg ->
  fst (handle (serve srv0 reqs) (rpc_of (CallSendCampaign (JStr "abc123")) i))
  = Some (mk_response_to i
            (Error (mk_error ToolInvocationError ("Mailchimp API error 404: " ++ msg)
                      (Some (mk_detail 404 msg))))).
Proof.
  intros Hstart Hready Hup Hs Hm.
  rewrite (handle_call (serve srv0 reqs) _ i Hready (reached_registry srv0 reqs Hstart)).
  assert (Hge : status_code resp >= 400) by lia.
  rewrite (invoke_http_error environ upstream _ _ resp Hup Hge).
  destruct (error_detail_of_extracted resp msg Hm) as [d [Hd <-]].
  rewrite Hd, Hs. reflexivity.
Qed.

End ProtocolProperties.

(* ================================================================== *)
(** ** The listing tools *)
(* ================================================================== *)

Section ListingProperties.

Variable environ : string -> option string.
Variable upstream : service.

Lemma rmap_Forall2 {A B} (f : A -> result B) xs :
  forall ys, rmap f xs = Return ys -> Forall2 (fun x y => f x = Return y) xs ys.
Proof.
  induction xs as [| x xs IH]; cbn [rmap]; intros ys H.
  - injection H as <-. constructor.
  - unfold rbind in H. destruct (f x) as [y |] eqn:Hx; [| discriminate].
    destruct (rmap f xs) as [ys' |]; [| discriminate].
    injection H as <-. constructor; [exact Hx | apply IH; reflexivity].
Qed.

Lemma truthy_field_present members key :
  truthy (field members key) = present_nonempty members key.
Proof.
  unfold field, present_nonempty. destruct (members_get key members); reflexivity.
Qed.

(** The record built for a campaign object. *)
Lemma campaign_entry_object m sm :
  settings_members m = Some sm ->
  campaign_entry (JDict m) =
  Return (JDict [("id", field m "id"); ("name", expected_campaign_name sm);
                 ("status", field m "status"); ("emails_sent", field m "emails_sent")]).
Proof.
  unfold settings_members, campaign_entry, expected_campaign_name.
  unfold get, get_default, rbind. fold (field m "id").
  fold (field m "status"). fold (field m "emails_sent").
  destruct (members_get "settings" m) as [[ | | | | | | sm'] |]; try discriminate;
    intros H; injection H as <-; [| reflexivity].
  fold (field sm' "title"). fold (field sm' "subject_line").
  rewrite truthy_field_present. destruct (present_nonempty sm' "title"); reflexivity.
Qed.

(** Only a campaign object gets a record. *)
Lemma campaign_entry_inv camp record :
  campaign_entry camp = Return record ->
  exists m sm, camp = JDict m /\ settings_members m = Some sm.
Proof.
  destruct camp as [ | | | | | | m]; try discriminate.
  intros H. exists m.
  unfold campaign_entry, get, get_default, rbind in H.
  unfold settings_members.
  destruct (members_get "settings" m) as [[ | | | | | | sm] |]; try discriminate;
    eexists; split; reflexivity.
Qed.

Lemma automation_entry_object m sm :
  settings_members m = Some sm ->
  automation_entry (JDict m) =
  Return (JDict [("id", field m "id"); ("name", expected_automation_name m sm);
                 ("status", field m "status"); ("emails_sent", field m "emails_sent")]).
Proof.
  unfold settings_members, automation_entry, expected_automation_name.
  unfold get, get_default, rbind. fold (field m "id").
  fold (field m "status"). fold (field m "emails_sent"). fold (field m "create_time").
  destruct (members_get "settings" m) as [[ | | | | | | sm'] |]; try discriminate;
    intros H; injection H as <-; [| reflexivity].
  fold (field sm' "title").
  rewrite truthy_field_present. destruct (present_nonempty sm' "title"); reflexivity.
Qed.

Lemma automation_entry_inv auto record :
  automation_entry auto = Return record ->
  exists m sm, auto = JDict m /\ settings_members m = Some sm.
Proof.
  destruct auto as [ | | | | | | m]; try discriminate.
  intros H. exists m.
  unfold automation_entry, get, get_default, rbind in H.
  unfold settings_members.
  destruct (members_get "settings" m) as [[ | | | | | | sm] |]; try discriminate;
    eexists; split; reflexivity.
Qed.

(** The two listing tools after their request: a pure pass over the body. *)
Lemma list_campaigns_unfold log :
  fst (list_campaigns environ upstream log) =
  let! resp := fst (mailchimp_request environ upstream "GET" "/campaigns" None log) in
  let! data := response_json resp in
  let! found := get_default data "campaigns" (JList []) in
  let! camps := py_iter found in
  let! campaigns := rmap campaign_entry camps in
  Return (JList campaigns).
Proof.
  unfold list_campaigns, bind, lift, ret, rbind.
  destruct (mailchimp_request environ upstream "GET" "/campaigns" None log)
    as [[resp | x] log']; cbn [fst]; [| reflexivity].
  destruct (response_json resp) as [data |]; [| reflexivity].
  destruct (get_default data "campaigns" (JList [])) as [found |]; [| reflexivity].
  destruct (py_iter found) as [camps |]; [| reflexivity].
  destruct (rmap campaign_entry camps); reflexivity.
Qed.

Lemma list_automations_unfold log :
  fst (list_automations environ upstream log) =
  let! resp := fst (mailchimp_request environ upstream "GET" "/automations" None log) in
  let! data := response_json resp in
  let! found := get_default data "automations" (JList []) in
  let! autos := py_iter found in
  let! automations := rmap automation_entry autos in
  Return (JList automations).
Proof.
  unfold list_automations, bind, lift, ret, rbind.
  destruct (mailchimp_request environ upstream "GET" "/automations" None log)
    as [[resp | x] log']; cbn [fst]; [| reflexivity].
  destruct (response_json resp) as [data |]; [| reflexivity].
  destruct (get_default data "automations" (JList [])) as [found |]; [| reflexivity].
  destruct (py_iter found) as [autos |]; [| reflexivity].
  destruct (rmap automation_entry autos); reflexivity.
Qed.

Lemma rmap_total {A B} (f : A -> result B) xs :
  Forall (fun x => exists y, f x = Return y) xs -> exists ys, rmap f xs = Return ys.
Proof.
  induction 1 as [| x xs [y Hy] _ [ys IH]]; cbn [rmap].
  - eexists. reflexivity.
  - unfold rbind. rewrite Hy, IH. eexists. reflexivity.
Qed.

Lemma is_item_object_true v :
  is_item_object v = true -> exists m sm, v = JDict m /\ settings_members m = Some sm.
Proof.
  destruct v as [ | | | | | | m]; try discriminate. cbn [is_item_object].
  destruct (settings_members m) as [sm |] eqn:Hsm; [| discriminate].
  intros _. exists m, sm. split; [reflexivity | exact Hsm].
Qed.

(** What relates a campaign object to its record. *)
Lemma campaign_entry_record camp record :
  campaign_entry camp = Return record ->
  exists m sm,
    camp = JDict m /\ settings_members m = Some sm
    /\ record = JDict [("id", field m "id"); ("name", expected_campaign_name sm);
                       ("status", field m "status");
                       ("emails_sent", field m "emails_sent")].
Proof.
  intros H. destruct (campaign_entry_inv camp record H) as [m [sm [-> Hsm]]].
  rewrite (campaign_entry_object m sm Hsm) in H. injection H as <-.
  exists m, sm. repeat split; assumption.
Qed.

Lemma automation_entry_record auto record :
  automation_entry auto = Return record ->
  exists m sm,
    auto = JDict m /\ settings_members m = Some sm
    /\ record = JDict [("id", field m "id"); ("name", expected_automation_name m sm);
                       ("status", field m "status");
                       ("emails_sent", field m "emails_sent")].
Proof.
  intros H. destruct (automation_entry_inv auto record H) as [m [sm [-> Hsm]]].
  rewrite (automation_entry_object m sm Hsm) in H. injection H as <-.
  exists m, sm. repeat split; assumption.
Qed.

Lemma Forall2_Forall_right {A B} (R : A -> B -> Prop) (P : B -> Prop) xs ys :
  (forall x y, R x y -> P y) -> Forall2 R xs ys -> Forall P ys.
Proof. intros HRP H. induction H; constructor; eauto. Qed.


(** C10. Every record that [list_campaigns] returns is built from a
    campaign object of the body, in order, and its name is
    [settings.title] when that is present and non-empty, otherwise
    [settings.subject_line], which is null when absent; every record that
    [list_automations] returns has as name [settings.title] when present
    and non-empty, otherwise the automation's [create_time].  And the
    records are returned: on a success status and a body whose listing is
    a list of item objects, each tool returns one record per item, in
    order, with that name. *)
Theorem listing_names log :
  (forall out,
     fst (list_campaigns environ upstream log) = Return out ->
     exists resp data found camps records,
       upstream log (outbound environ CallListCampaigns) = Responded resp
       /\ json_of resp = Some data
       /\ get_default data "campaigns" (JList []) = Return found
       /\ py_iter found = Return camps
       /\ out = JList records
       /\ Forall2 (fun camp record =>
                     exists m sm,
                       camp = JDict m /\ settings_members m = Some sm
                       /\ get record "name" = Return (expected_campaign_name sm))
                  camps records)
  /\ (forall out,
        fst (list_automations environ upstream log) = Return out ->
        exists resp data found autos records,
          upstream log (outbound environ CallListAutomations) = Responded resp
          /\ json_of resp = Some data
          /\ get_default data "automations" (JList []) = Return found
          /\ py_iter found = Return autos
          /\ out = JList records
          /\ Forall2 (fun auto record =>
                        exists m sm,
                          auto = JDict m /\ settings_members m = Some sm
                          /\ get record "name" = Return (expected_automation_name m sm))
                     autos records)
  /\ (forall sm,
        members_get "title" sm = None -> members_get "subject_line" sm = None ->
        expected_campaign_name sm = JNull)
  /\ (forall resp members camps,
        upstream log (outbound environ CallListCampaigns) = Responded resp ->
        status_code resp < 400 ->
        json_of resp = Some (JDict members) ->
        members_get "campaigns" members = Some (JList camps) ->
        forallb is_item_object camps = true ->
        exists records,
          fst (list_campaigns environ upstream log) = Return (JList records)
          /\ Forall2 (fun camp record =>
                        exists m sm,
                          camp = JDict m /\ settings_members m = Some sm
                          /\ get record "name" = Return (expected_campaign_name sm))
                     camps records)
  /\ (forall resp members autos,
        upstream log (outbound environ CallListAutomations) = Responded resp ->
        status_code resp < 400 ->
        json_of resp = Some (JDict members) ->
        members_get "automations" members = Some (JList autos) ->
        forallb is_item_object autos = true ->
        exists records,
          fst (list_automations environ upstream log) = Return (JList records)
          /\ Forall2 (fun auto record =>
                        exists m sm,
                          auto = JDict m /\ settings_members m = Some sm
                          /\ get record "name"
                             = Return (expected_automation_name m sm))
                     autos records).
Proof.
  split; [| split; [| split; [| split]]].
  - intros out H. rewrite list_campaigns_unfold, mailchimp_request_unfold in H.
    cbn [fst outbound] in *.
    destruct (upstream log _) as [e | resp] eqn:Hup; [discriminate |].
    destruct (status_code resp >=? 400).
    { destruct (error_detail_of resp); discriminate. }
    cbn [rbind] in H. unfold response_json in H.
    destruct (json_of resp) as [data |] eqn:Hj; [| discriminate].
    cbn [rbind] in H.
    destruct (get_default data "campaigns" (JList [])) as [found |] eqn:Hf; [| discriminate].
    cbn [rbind] in H.
    destruct (py_iter found) as [camps |] eqn:Hi; [| discriminate].
    cbn [rbind] in H.
    destruct (rmap campaign_entry camps) as [records |] eqn:Hr; [| discriminate].
    injection H as <-.
    exists resp, data, found, camps, records.
    repeat (split; [first [reflexivity | eassumption] |]).
    apply rmap_Forall2 in Hr. revert Hr. apply Forall2_impl.
    intros camp record Hentry.
    destruct (campaign_entry_record camp record Hentry) as [m [sm [-> [Hsm ->]]]].
    exists m, sm. split; [reflexivity | split; [exact Hsm | reflexivity]].
  - intros out H. rewrite list_automations_unfold, mailchimp_request_unfold in H.
    cbn [fst outbound] in *.
    destruct (upstream log _) as [e | resp] eqn:Hup; [discriminate |].
    destruct (status_code resp >=? 400).
    { destruct (error_detail_of resp); discriminate. }
    cbn [rbind] in H. unfold response_json in H.
    destruct (json_of resp) as [data |] eqn:Hj; [| discriminate].
    cbn [rbind] in H.
    destruct (get_default data "automations" (JList [])) as [found |] eqn:Hf; [| discriminate].
    cbn [rbind] in H.
    destruct (py_iter found) as [autos |] eqn:Hi; [| discriminate].
    cbn [rbind] in H.
    destruct (rmap automation_entry autos) as [records |] eqn:Hr; [| discriminate].
    injection H as <-.
    exists resp, data, found, autos, records.
    repeat (split; [first [reflexivity | eassumption] |]).
    apply rmap_Forall2 in Hr. revert Hr. apply Forall2_impl.
    intros auto record Hentry.
    destruct (automation_entry_record auto record Hentry) as [m [sm [-> [Hsm ->]]]].
    exists m, sm. split; [reflexivity | split; [exact Hsm | reflexivity]].
  - intros sm Ht Hsub. unfold expected_campaign_name, present_nonempty, field.
    rewrite Ht, Hsub. reflexivity.
  - intros resp members camps Hup Hs Hj Hc Hobj. cbn [outbound] in Hup.
    assert (Hall : Forall (fun camp => exists y, campaign_entry camp = Return y) camps).
    { apply Forall_forall. intros camp Hin.
      rewrite forallb_forall in Hobj.
      destruct (is_item_object_true camp (Hobj camp Hin)) as [m [sm [-> Hsm]]].
      rewrite (campaign_entry_object m sm Hsm). eexists. reflexivity. }
    destruct (rmap_total campaign_entry camps Hall) as [records Hrec].
    exists records. split.
    + rewrite list_campaigns_unfold, mailchimp_request_unfold, Hup.
      rewrite (geb_400_false _ Hs). cbn [fst rbind].
      unfold response_json. rewrite Hj. cbn [rbind get_default]. rewrite Hc.
      cbn [py_iter rbind]. rewrite Hrec. reflexivity.
    + apply rmap_Forall2 in Hrec. revert Hrec. apply Forall2_impl.
      intros camp record Hentry.
      destruct (campaign_entry_record camp record Hentry) as [m [sm [-> [Hsm ->]]]].
      exists m, sm. split; [reflexivity | split; [exact Hsm | reflexivity]].
  - intros resp members autos Hup Hs Hj Ha Hobj. cbn [outbound] in Hup.
    assert (Hall : Forall (fun auto => exists y, automation_entry auto = Return y) autos).
    { apply Forall_forall. intros auto Hin.
      rewrite forallb_forall in Hobj.
      destruct (is_item_object_true auto (Hobj auto Hin)) as [m [sm [-> Hsm]]].
      rewrite (automation_entry_object m sm Hsm). eexists. reflexivity. }
    destruct (rmap_total automation_entry autos Hall) as [records Hrec].
    exists records. split.
    + rewrite list_automations_unfold, mailchimp_request_unfold, Hup.
      rewrite (geb_400_false _ Hs). cbn [fst rbind].
      unfold response_json. rewrite Hj. cbn [rbind get_default]. rewrite Ha.
      cbn [py_iter rbind]. rewrite Hrec. reflexivity.
    + apply rmap_Forall2 in Hrec. revert Hrec. apply Forall2_impl.
      intros auto record Hentry.
      destruct (automation_entry_record auto record Hentry) as [m [sm [-> [Hsm ->]]]].
      exists m, sm. split; [reflexivity | split; [exact Hsm | reflexivity]].
Qed.

End ListingProperties.

(* ================================================================== *)
(** ** Configuration *)
(* ================================================================== *)

Section SplitProperties.

Variable sep : ascii.

Lemma py_split_no_sep s : string_mem sep s = false -> py_split sep s = [s].
Proof.
  induction s as [| c s IH]; cbn [string_mem py_split]; [reflexivity |].
  intros H. apply orb_false_iff in H. destruct H as [Hc Hs].
  rewrite Ascii.eqb_sym, Hc, (IH Hs). reflexivity.
Qed.

Lemma py_split_two_pieces s :
  string_mem sep s = true -> exists p q r, py_split sep s = p :: q :: r.
Proof.
  induction s as [| c s IH]; cbn [string_mem py_split]; [discriminate |].
  rewrite (Ascii.eqb_sym sep c).
  destruct (Ascii.eqb c sep); cbn [orb].
  - intros _. destruct (string_mem sep s) eqn:Hs.
    + destruct (IH eq_refl) as [p [q [r ->]]]. eexists _, _, _. reflexivity.
    + rewrite (py_split_no_sep s Hs). eexists _, _, _. reflexivity.
  - intros Hs. destruct (IH Hs) as [p [q [r ->]]]. eexists _, _, _. reflexivity.
Qed.

(** [s.split(sep)[-1]] is the part of [s] after its last separator. *)
Lemma py_last_split s : py_last (py_split sep s) = after_last sep s.
Proof.
  unfold py_last.
  induction s as [| c s IH]; cbn [py_split after_last]; [reflexivity |].
  destruct (string_mem sep s) eqn:Hs.
  - destruct (py_split_two_pieces s Hs) as [p [q [r Hsplit]]].
    rewrite Hsplit in *. rewrite <- IH.
    destruct (Ascii.eqb c sep); reflexivity.
  - rewrite (py_split_no_sep s Hs).
    destruct (Ascii.eqb c sep); reflexivity.
Qed.

Lemma string_mem_app_sep pre suf : string_mem sep (pre ++ String sep suf) = true.
Proof.
  induction pre as [| c pre IH]; cbn [append string_mem].
  - rewrite Ascii.eqb_refl. reflexivity.
  - rewrite IH. apply orb_true_r.
Qed.

Lemma after_last_app pre suf :
  string_mem sep suf = false -> after_last sep (pre ++ String sep suf) = suf.
Proof.
  intros Hsuf. induction pre as [| c pre IH]; cbn [append after_last].
  - rewrite Hsuf, Ascii.eqb_refl. reflexivity.
  - rewrite string_mem_app_sep. exact IH.
Qed.

End SplitProperties.

Section ConfigurationProperties.

Variable environ : string -> option string.

(** C8, as the module has it.  When the environment has no region, a key
    of the form [pre-suf], with no hyphen in [suf], gives the region [suf],
    the part after the key's last hyphen; a region set in the environment
    to anything but the placeholder "<YOUR_DC>" is used unchanged.  Either
    way the base URL is built on that region. *)
Theorem region_from_key_or_environment :
  (forall pre suf,
     environ "MAILCHIMP_DC" = None ->
     environ "MAILCHIMP_API_KEY" = Some (pre ++ String hyphen suf) ->
     string_mem hyphen suf = false ->
     MAILCHIMP_DC environ = suf
     /\ BASE_URL environ = "https://" ++ suf ++ ".api.mailchimp.com/3.0")
  /\ (forall dc,
        environ "MAILCHIMP_DC" = Some dc ->
        dc <> "<YOUR_DC>" ->
        MAILCHIMP_DC environ = dc
        /\ BASE_URL environ = "https://" ++ dc ++ ".api.mailchimp.com/3.0").
Proof.
  split.
  - intros pre suf Hdc Hkey Hsuf.
    assert (H : MAILCHIMP_DC environ = suf).
    { unfold MAILCHIMP_DC, MAILCHIMP_API_KEY, environ_get. rewrite Hdc, Hkey.
      rewrite String.eqb_refl, string_mem_app_sep. cbn [andb].
      destruct (pre ++ String hyphen suf =? "")%string eqn:He.
      - apply String.eqb_eq in He. destruct pre; discriminate He.
      - cbn [negb]. rewrite py_last_split. apply after_last_app. exact Hsuf. }
    unfold BASE_URL. rewrite H. split; reflexivity.
  - intros dc Hdc Hneq.
    assert (H : MAILCHIMP_DC environ = dc).
    { unfold MAILCHIMP_DC, environ_get. rewrite Hdc.
      apply String.eqb_neq in Hneq. rewrite Hneq. reflexivity. }
    unfold BASE_URL. rewrite H. split; reflexivity.
Qed.

End ConfigurationProperties.

(** A region set in the environment to the placeholder itself is not used:
    the region is taken from the key. *)
Lemma placeholder_region_replaced :
  placeholder_environ "MAILCHIMP_DC" = Some "<YOUR_DC>"
  /\ MAILCHIMP_DC placeholder_environ = "us21"
  /\ MAILCHIMP_DC placeholder_environ <> "<YOUR_DC>"
  /\ BASE_URL placeholder_environ = "https://us21.api.mailchimp.com/3.0".
Proof.
  split; [reflexivity |]. split; [vm_compute; reflexivity |].
  split; [vm_compute; discriminate | vm_compute; reflexivity].
Qed.

Lemma region_from_key_or_environment_witness :
  (MAILCHIMP_DC sample_environ = "us21"
   /\ BASE_URL sample_environ = "https://" ++ "us21" ++ ".api.mailchimp.com/3.0")
  /\ (MAILCHIMP_DC explicit_environ = "us6"
      /\ BASE_URL explicit_environ = "https://" ++ "us6" ++ ".api.mailchimp.com/3.0").
Proof.
  split.
  - apply (proj1 (region_from_key_or_environment sample_environ)
             "0123456789abcdef0123456789abcdef" "us21"); reflexivity.
  - apply (proj2 (region_from_key_or_environment explicit_environ) "us6");
      [reflexivity | discriminate].
Defined.

(* ================================================================== *)
(** ** Concrete sessions *)
(* ================================================================== *)

Example list_campaigns_sample_run :
  list_campaigns sample_environ (always campaigns_response) []
  = (Return (JList sample_campaign_records),
     [mk_request "GET" "https://us21.api.mailchimp.com/3.0/campaigns"
        ("anystring", "0123456789abcdef0123456789abcdef-us21") None]).
Proof. vm_compute. reflexivity. Qed.

Example list_automations_sample_run :
  fst (list_automations sample_environ (always automations_response) [])
  = Return
      (JList [JDict [("id", JStr "b0a1c24f1a"); ("name", JStr "Welcome series");
                     ("status", JStr "sending"); ("emails_sent", JInt 7)];
              JDict [("id", JStr "c1d2e3f4a5");
                     ("name", JStr "2024-05-17T08:30:00+00:00");
                     ("status", JStr "paused"); ("emails_sent", JInt 0)]]).
Proof. vm_compute. reflexivity. Qed.

(** A campaign whose [settings] is null stops the listing. *)
Example list_campaigns_null_settings :
  fst (list_campaigns sample_environ
         (always (json_response 200
                    (JDict [("campaigns",
                             JList [JDict [("id", JStr "42694e9e57");
                                           ("settings", JNull)]])])))
         [])
  = Raise (AttributeError "'NoneType' object has no attribute 'get'").
Proof. vm_compute. reflexivity. Qed.

Lemma tools_list_registration_order_witness :
  exists ds,
    Protocol.handle (Protocol.serve (sample_server unreachable) [initialize_request])
      (Protocol.mk_rpc "tools/list" 1 (JDict []))
    = (Some (Protocol.mk_response_to 1 (Protocol.Tools ds)),
       Protocol.serve (sample_server unreachable) [initialize_request])
    /\ ds = Protocol.list_tools (Protocol.registry (sample_server unreachable))
    /\ ds = map Protocol.descriptor_of (tool_definitions sample_environ unreachable)
    /\ map Protocol.name ds = ["list_campaigns"; "create_campaign"; "send_campaign";
                               "list_automations"; "start_automation"]
    /\ NoDup (map Protocol.name ds).
Proof.
  exact (tools_list_registration_order sample_environ unreachable
           (sample_server unreachable) [initialize_request] 1 (JDict [])
           eq_refl eq_refl).
Defined.

Lemma tools_list_idempotent_witness :
  (exists ds,
     Protocol.handle (Protocol.serve (sample_server unreachable) [initialize_request])
       (Protocol.mk_rpc "tools/list" 1 (JDict []))
     = (Some (Protocol.mk_response_to 1 (Protocol.Tools ds)),
        Protocol.serve (sample_server unreachable) [initialize_request])
     /\ Protocol.handle
          (snd (Protocol.handle
                  (Protocol.serve (sample_server unreachable) [initialize_request])
                  (Protocol.mk_rpc "tools/list" 1 (JDict []))))
          (Protocol.mk_rpc "tools/list" 2 (JDict []))
        = (Some (Protocol.mk_response_to 2 (Protocol.Tools ds)),
           Protocol.serve (sample_server unreachable) [initialize_request]))
  /\ (forall reqs,
        Protocol.registry
          (Protocol.serve (Protocol.serve (sample_server unreachable) [initialize_request])
             reqs)
        = Protocol.registry
            (Protocol.serve (sample_server unreachable) [initialize_request])).
Proof.
  exact (tools_list_idempotent
           (Protocol.serve (sample_server unreachable) [initialize_request])
           1 (JDict []) 2 (JDict []) eq_refl).
Defined.

(** The first request to [flaky] fails and a second one would be answered:
    the call still fails, after one request. *)
Lemma connect_failure_unreachable_no_retry_witness :
  invoke sample_environ flaky CallListCampaigns []
  = (Raise (ConnectError "Connection refused"),
     [outbound sample_environ CallListCampaigns])
  /\ exists err srv',
       Protocol.handle (Protocol.serve (sample_server flaky) [initialize_request])
         (rpc_of CallListCampaigns 1)
       = (Some (Protocol.mk_response_to 1 (Protocol.Error err)), srv')
       /\ Protocol.kind err = Protocol.UpstreamUnreachable
       /\ Protocol.message err = "Failed to connect to Mailchimp API: Connection refused"
       /\ Protocol.calls srv' = [outbound sample_environ CallListCampaigns].
Proof.
  exact (connect_failure_unreachable_no_retry sample_environ flaky
           (sample_server flaky) [initialize_request] CallListCampaigns 1
           "Connection refused" eq_refl eq_refl eq_refl).
Defined.


Lemma listing_names_witness :
  (exists resp data found camps records,
     always campaigns_response [] (outbound sample_environ CallListCampaigns)
     = Responded resp
     /\ json_of resp = Some data
     /\ get_default data "campaigns" (JList []) = Return found
     /\ py_iter found = Return camps
     /\ JList sample_campaign_records = JList records
     /\ Forall2 (fun camp record =>
                   exists m sm,
                     camp = JDict m /\ settings_members m = Some sm
                     /\ get record "name" = Return (expected_campaign_name sm))
                camps records)
  /\ (exists records,
        fst (list_campaigns sample_environ (always campaigns_response) [])
        = Return (JList records)
        /\ Forall2 (fun camp record =>
                      exists m sm,
                        camp = JDict m /\ settings_members m = Some sm
                        /\ get record "name" = Return (expected_campaign_name sm))
                   sample_campaigns records)
  /\ (exists records,
        fst (list_automations sample_environ (always automations_response) [])
        = Return (JList records)
        /\ Forall2 (fun auto record =>
                      exists m sm,
                        auto = JDict m /\ settings_members m = Some sm
                        /\ get record "name" = Return (expected_automation_name m sm))
                   sample_automations records).
Proof.
  split; [| split].
  - exact (proj1 (listing_names sample_environ (always campaigns_response) [])
             (JList sample_campaign_records) eq_refl).
  - refine (proj1 (proj2 (proj2 (proj2
              (listing_names sample_environ (always campaigns_response) []))))
              campaigns_response _ sample_campaigns
              eq_refl eq_refl eq_refl eq_refl eq_refl).
  - refine (proj2 (proj2 (proj2 (proj2
              (listing_names sample_environ (always automations_response) []))))
              automations_response _ sample_automations
              eq_refl eq_refl eq_refl eq_refl eq_refl).
Defined.

(** The response to the 404 scenario when the body is a JSON array: the
    error has no upstream detail, so no status. *)
Example send_campaign_404_array_body_response :
  fst (Protocol.handle
         (Protocol.serve (sample_server (always (json_response 404 (JList []))))
            [initialize_request])
         (rpc_of (CallSendCampaign (JStr "abc123")) 1))
  = Some (Protocol.mk_response_to 1
            (Protocol.Error
               (Protocol.mk_error Protocol.ToolInvocationError
                  "'list' object has no attribute 'get'" None))).
Proof. vm_compute. reflexivity. Qed.

(** The same scenario on Mailchimp's own 404 body. *)
Example send_campaign_404_problem_body_response :
  fst (Protocol.handle
         (Protocol.serve (sample_server (always not_found_response)) [initialize_request])
         (rpc_of (CallSendCampaign (JStr "abc123")) 1))
  = Some (Protocol.mk_response_to 1
            (Protocol.Error
               (Protocol.mk_error Protocol.ToolInvocationError
                  "Mailchimp API error 404: The requested resource could not be found."
                  (Some (Protocol.mk_detail 404
                           "The requested resource could not be found."))))).
Proof. vm_compute. reflexivity. Qed.

(** An error body that is a JSON array leaves [mailchimp_request] as the
    [AttributeError] of [.get], whatever the status. *)
Example array_body_raises_attribute_error :
  fst (mailchimp_request sample_environ (always array_error_response)
         "GET" "/campaigns" None [])
  = Raise (AttributeError "'list' object has no attribute 'get'").
Proof. vm_compute. reflexivity. Qed.

(* ================================================================== *)
(** ** Further properties of the tools *)
(* ================================================================== *)

Section ToolProperties.

Variable environ : string -> option string.
Variable upstream : service.

(** The five tools after their request has been answered with a status
    below 400. *)
Lemma invoke_success c log resp :
  upstream log (outbound environ c) = Responded resp ->
  status_code resp < 400 ->
  fst (invoke environ upstream c log) =
  match c with
  | CallListCampaigns =>
      let! data := response_json resp in
      let! found := get_default data "campaigns" (JList []) in
      let! camps := py_iter found in
      let! campaigns := rmap campaign_entry camps in
      Return (JList campaigns)
  | CallCreateCampaign _ _ _ _ =>
      let! campaign_info := response_json resp in
      let! id := get campaign_info "id" in
      let! status := get_default campaign_info "status" (JStr "created") in
      Return (JDict [("id", id); ("status", status)])
  | CallListAutomations =>
      let! data := response_json resp in
      let! found := get_default data "automations" (JList []) in
      let! autos := py_iter found in
      let! automations := rmap automation_entry autos in
      Return (JList automations)
  | CallSendCampaign _ | CallStartAutomation _ => Return (JStr (confirmation c))
  end.
Proof.
  intros Hup Hs. apply geb_400_false in Hs.
  destruct c; cbn [invoke outbound confirmation] in *.
  - rewrite list_campaigns_unfold, mailchimp_request_unfold, Hup, Hs. reflexivity.
  - unfold create_campaign, bind, lift, ret, rbind.
    rewrite mailchimp_request_unfold, Hup, Hs.
    destruct (response_json resp) as [info |]; [| reflexivity].
    destruct (get info "id"); [| reflexivity].
    destruct (get_default info "status" (JStr "created")); reflexivity.
  - unfold send_campaign, bind, ret.
    rewrite mailchimp_request_unfold, Hup, Hs. reflexivity.
  - rewrite list_automations_unfold, mailchimp_request_unfold, Hup, Hs. reflexivity.
  - unfold start_automation, bind, ret.
    rewrite mailchimp_request_unfold, Hup, Hs. reflexivity.
Qed.

(** X1. A tool returns a value only when the service answered its request
    with a status below 400: a failed connection or an error status never
    comes back as a result. *)
Theorem tool_returns_only_below_400 c log v :
  fst (invoke environ upstream c log) = Return v ->
  exists resp,
    upstream log (outbound environ c) = Responded resp /\ status_code resp < 400.
Proof.
  intros H.
  destruct (upstream log (outbound environ c)) as [e | resp] eqn:Hup.
  - rewrite (invoke_connect_error environ upstream c log e Hup) in H. discriminate H.
  - exists resp. split; [reflexivity |].
    destruct (Z_lt_ge_dec (status_code resp) 400) as [Hlt | Hge]; [exact Hlt |].
    rewrite (invoke_http_error environ upstream c log resp Hup Hge) in H.
    destruct (error_detail_of resp); discriminate H.
Qed.

(** X2. Whatever the outcome, a tool call adds exactly one request to the
    log of outbound calls.  The request goes to an endpoint under
    [BASE_URL], carries the API key as the password of its basic
    authentication, uses GET for the two listings and POST otherwise, and
    has a JSON payload only for [create_campaign]. *)
Theorem tool_call_single_authenticated_request c log :
  exists r endpoint,
    snd (invoke environ upstream c log) = (log ++ [r])%list
    /\ req_url r = BASE_URL environ ++ endpoint
    /\ req_auth r = ("anystring", MAILCHIMP_API_KEY environ)
    /\ req_method r = (match c with
                       | CallListCampaigns | CallListAutomations => "GET"
                       | _ => "POST"
                       end)
    /\ (req_json r = None <->
        match c with CallCreateCampaign _ _ _ _ => False | _ => True end).
Proof.
  exists (outbound environ c).
  destruct c; eexists; (split; [apply invoke_log |]); cbn [outbound req_url req_auth
    req_method req_json]; repeat split; try reflexivity; try discriminate;
    intros; try contradiction; exact I.
Qed.

(** X3. [send_campaign] and [start_automation] never read the response
    body: on any response with a status below 400, whatever its body, they
    return their confirmation sentence with the identifier they were
    given. *)
Theorem action_tools_ignore_body c log resp :
  reads_body c = false ->
  upstream log (outbound environ c) = Responded resp ->
  status_code resp < 400 ->
  fst (invoke environ upstream c log) = Return (JStr (confirmation c))
  /\ (forall campaign_id, c = CallSendCampaign campaign_id ->
        confirmation c = "Campaign " ++ py_str campaign_id ++ " has been sent.")
  /\ (forall workflow_id, c = CallStartAutomation workflow_id ->
        confirmation c = "Automation workflow " ++ py_str workflow_id ++ " started.").
Proof.
  intros Hc Hup Hs. rewrite (invoke_success c log resp Hup Hs).
  destruct c; try discriminate Hc;
    (split; [reflexivity |]); split; intros x Hx; try discriminate Hx;
    injection Hx as <-; reflexivity.
Qed.

(** X4. [list_campaigns], [create_campaign] and [list_automations] parse
    the body of a successful response: when it is not JSON, for example
    empty, the JSON decoding error leaves the tool uncaught. *)
Theorem parsing_tools_need_json_body c log resp :
  reads_body c = true ->
  upstream log (outbound environ c) = Responded resp ->
  status_code resp < 400 ->
  json_of resp = None ->
  fst (invoke environ upstream c log) = Raise JSONDecodeError.
Proof.
  intros Hc Hup Hs Hj. rewrite (invoke_success c log resp Hup Hs).
  unfold response_json. rewrite Hj.
  destruct c; try discriminate Hc; reflexivity.
Qed.

(** X5. A successful body that is a JSON object without the listing key
    gives the empty list: "campaigns" for [list_campaigns], "automations"
    for [list_automations]. *)
Theorem listing_missing_key_empty log resp members :
  status_code resp < 400 ->
  json_of resp = Some (JDict members) ->
  (upstream log (outbound environ CallListCampaigns) = Responded resp ->
   members_get "campaigns" members = None ->
   fst (list_campaigns environ upstream log) = Return (JList []))
  /\ (upstream log (outbound environ CallListAutomations) = Responded resp ->
      members_get "automations" members = None ->
      fst (list_automations environ upstream log) = Return (JList [])).
Proof.
  intros Hs Hj. split; intros Hup Hm.
  - change (fst (invoke environ upstream CallListCampaigns log) = Return (JList [])).
    rewrite (invoke_success _ log resp Hup Hs).
    unfold response_json. rewrite Hj. cbn [rbind get_default]. rewrite Hm. reflexivity.
  - change (fst (invoke environ upstream CallListAutomations log) = Return (JList [])).
    rewrite (invoke_success _ log resp Hup Hs).
    unfold response_json. rewrite Hj. cbn [rbind get_default]. rewrite Hm. reflexivity.
Qed.

(** X6. On a successful JSON object body [create_campaign] returns a dict
    with exactly the keys id and status: id is the body's "id", null when
    absent; status is the body's "status", and "created" only when the key
    is absent (a null status stays null).  A successful body that is JSON
    but not an object raises the [AttributeError] of [.get]. *)
Theorem create_campaign_result list_id subject from_name reply_to log resp :
  upstream log (outbound environ (CallCreateCampaign list_id subject from_name reply_to))
  = Responded resp ->
  status_code resp < 400 ->
  (forall members,
     json_of resp = Some (JDict members) ->
     fst (create_campaign environ upstream list_id subject from_name reply_to log)
     = Return (JDict [("id", field members "id");
                      ("status", match members_get "status" members with
                                 | Some status => status
                                 | None => JStr "created"
                                 end)]))
  /\ (forall v,
        json_of resp = Some v ->
        (forall members, v <> JDict members) ->
        fst (create_campaign environ upstream list_id subject from_name reply_to log)
        = Raise (no_attribute_get v)).
Proof.
  intros Hup Hs.
  pose proof (invoke_success _ log resp Hup Hs) as H. cbn [invoke] in H.
  split.
  - intros members Hj. rewrite H. unfold response_json. rewrite Hj. reflexivity.
  - intros v Hj Hv. rewrite H. unfold response_json. rewrite Hj.
    destruct v; try reflexivity. exfalso. eapply Hv. reflexivity.
Qed.

End ToolProperties.

Section MoreListingProperties.

Variable environ : string -> option string.
Variable upstream : service.

(** X7. When the service answers [list_automations] with a success status
    and a body whose "automations" is a list of N automation objects, the
    tool returns N records, the i-th built from the i-th automation, each
    with exactly the fields id, name, status and emails_sent; a field the
    automation lacks is null in the record. *)
Theorem list_automations_preserves_sequence log resp members autos :
  upstream log (outbound environ CallListAutomations) = Responded resp ->
  status_code resp < 400 ->
  json_of resp = Some (JDict members) ->
  members_get "automations" members = Some (JList autos) ->
  forallb is_item_object autos = true ->
  exists records,
    fst (list_automations environ upstream log) = Return (JList records)
    /\ length records = length autos
    /\ Forall2 (fun auto record =>
                  exists m sm,
                    auto = JDict m /\ settings_members m = Some sm
                    /\ record = JDict [("id", field m "id");
                                       ("name", expected_automation_name m sm);
                                       ("status", field m "status");
                                       ("emails_sent", field m "emails_sent")])
               autos records.
Proof.
  intros Hup Hs Hj Ha Hobj.
  assert (Hall : Forall (fun auto => exists y, automation_entry auto = Return y) autos).
  { apply Forall_forall. intros auto Hin.
    rewrite forallb_forall in Hobj.
    destruct (is_item_object_true auto (Hobj auto Hin)) as [m [sm [-> Hsm]]].
    rewrite (automation_entry_object m sm Hsm). eexists. reflexivity. }
  destruct (rmap_total automation_entry autos Hall) as [records Hrec].
  pose proof (rmap_Forall2 automation_entry autos records Hrec) as HF.
  exists records. split; [| split].
  - change (fst (invoke environ upstream CallListAutomations log) = Return (JList records)).
    rewrite (invoke_success environ upstream _ log resp Hup Hs).
    unfold response_json. rewrite Hj. cbn [rbind get_default]. rewrite Ha.
    cbn [py_iter rbind]. rewrite Hrec. reflexivity.
  - symmetry. exact (Forall2_length HF).
  - revert HF. apply Forall2_impl. exact automation_entry_record.
Qed.

(** An item that is not an item object has no record: building it raises
    an [AttributeError]. *)
Lemma campaign_entry_malformed camp :
  is_item_object camp = false -> exists msg, campaign_entry camp = Raise (AttributeError msg).
Proof.
  unfold is_item_object, settings_members, campaign_entry, get, get_default, rbind.
  destruct camp as [ | | | | | | m]; try (intros _; eexists; reflexivity).
  destruct (members_get "settings" m) as [[ | | | | | | sm] |]; try discriminate;
    intros _; eexists; reflexivity.
Qed.

Lemma automation_entry_malformed auto :
  is_item_object auto = false ->
  exists msg, automation_entry auto = Raise (AttributeError msg).
Proof.
  unfold is_item_object, settings_members, automation_entry, get, get_default, rbind.
  destruct auto as [ | | | | | | m]; try (intros _; eexists; reflexivity).
  destruct (members_get "settings" m) as [[ | | | | | | sm] |]; try discriminate;
    intros _; eexists; reflexivity.
Qed.

(** A loop over items stops with the exception of the first item that has
    no record. *)
Lemma rmap_malformed (entry : json -> result json) items :
  (forall item, is_item_object item = true -> exists y, entry item = Return y) ->
  (forall item, is_item_object item = false ->
                exists msg, entry item = Raise (AttributeError msg)) ->
  forallb is_item_object items = false ->
  exists msg, rmap entry items = Raise (AttributeError msg).
Proof.
  intros Hgood Hbad.
  induction items as [| item items IH]; cbn [forallb rmap]; [discriminate |].
  destruct (is_item_object item) eqn:Hitem; cbn [andb]; intros Hrest.
  - destruct (Hgood item Hitem) as [y ->]. cbn [rbind].
    destruct (IH Hrest) as [msg ->]. exists msg. reflexivity.
  - destruct (Hbad item Hitem) as [msg ->]. exists msg. reflexivity.
Qed.

(** X8. The listings are all or nothing: when one item of the list is not
    a JSON object, or has a [settings] that is not a JSON object, the tool
    raises an [AttributeError] and returns no partial list. *)
Theorem listing_all_or_nothing log resp members items :
  status_code resp < 400 ->
  json_of resp = Some (JDict members) ->
  forallb is_item_object items = false ->
  (upstream log (outbound environ CallListCampaigns) = Responded resp ->
   members_get "campaigns" members = Some (JList items) ->
   exists msg, fst (list_campaigns environ upstream log) = Raise (AttributeError msg))
  /\ (upstream log (outbound environ CallListAutomations) = Responded resp ->
      members_get "automations" members = Some (JList items) ->
      exists msg, fst (list_automations environ upstream log) = Raise (AttributeError msg)).
Proof.
  intros Hs Hj Hbad. split; intros Hup Hm.
  - change (exists msg, fst (invoke environ upstream CallListCampaigns log)
                        = Raise (AttributeError msg)).
    rewrite (invoke_success environ upstream _ log resp Hup Hs).
    unfold response_json. rewrite Hj. cbn [rbind get_default]. rewrite Hm.
    cbn [py_iter rbind].
    destruct (rmap_malformed campaign_entry items) as [msg ->];
      [| exact campaign_entry_malformed | exact Hbad | exists msg; reflexivity].
    intros item Hitem. destruct (is_item_object_true item Hitem) as [m [sm [-> Hsm]]].
    rewrite (campaign_entry_object m sm Hsm). eexists. reflexivity.
  - change (exists msg, fst (invoke environ upstream CallListAutomations log)
                        = Raise (AttributeError msg)).
    rewrite (invoke_success environ upstream _ log resp Hup Hs).
    unfold response_json. rewrite Hj. cbn [rbind get_default]. rewrite Hm.
    cbn [py_iter rbind].
    destruct (rmap_malformed automation_entry items) as [msg ->];
      [| exact automation_entry_malformed | exact Hbad | exists msg; reflexivity].
    intros item Hitem. destruct (is_item_object_true item Hitem) as [m [sm [-> Hsm]]].
    rewrite (automation_entry_object m sm Hsm). eexists. reflexivity.
Qed.

(** X11. For every tool, a response with a status of at least 400 whose
    body is JSON but not a JSON object (an array, a string, a number, a
    boolean or null) makes the call fail with the [AttributeError] of
    [.get] on that value; the exception names the value's type and not the
    status. *)
Theorem http_error_non_object_body c log resp v :
  upstream log (outbound environ c) = Responded resp ->
  status_code resp >= 400 ->
  json_of resp = Some v ->
  (forall members, v <> JDict members) ->
  fst (invoke environ upstream c log)
  = Raise (AttributeError ("'" ++ py_type_name v ++ "' object has no attribute 'get'")).
Proof.
  intros Hup Hs Hj Hv.
  rewrite (invoke_http_error environ upstream c log resp Hup Hs).
  rewrite (error_detail_of_not_object resp v Hj Hv). reflexivity.
Qed.

End MoreListingProperties.

Section MoreConfigurationProperties.

Variable environ : string -> option string.

(** A string that holds the separator splits around its last one. *)
Lemma after_last_decompose sep s :
  string_mem sep s = true ->
  string_mem sep (after_last sep s) = false
  /\ exists pre, s = pre ++ String sep (after_last sep s).
Proof.
  induction s as [| c s IH]; cbn [string_mem after_last]; [discriminate |].
  destruct (string_mem sep s) eqn:Hs.
  - intros _. destruct (IH eq_refl) as [Hno [pre Hpre]].
    split; [exact Hno |]. exists (String c pre). cbn [append]. rewrite <- Hpre. reflexivity.
  - rewrite orb_false_r. intros Hc. rewrite Ascii.eqb_sym in Hc. rewrite Hc.
    split; [exact Hs |]. exists "". apply Ascii.eqb_eq in Hc. subst c. reflexivity.
Qed.

(** X9. When the region is not set in the environment, or is set to the
    placeholder, and the API key holds a hyphen, the region the module
    derives has no hyphen in it and the key ends with a hyphen followed by
    that region. *)
Theorem derived_region_is_key_suffix :
  (environ "MAILCHIMP_DC" = None \/ environ "MAILCHIMP_DC" = Some "<YOUR_DC>") ->
  string_mem hyphen (MAILCHIMP_API_KEY environ) = true ->
  string_mem hyphen (MAILCHIMP_DC environ) = false
  /\ exists pre, MAILCHIMP_API_KEY environ = pre ++ String hyphen (MAILCHIMP_DC environ).
Proof.
  intros Hdc Hkey.
  assert (H : MAILCHIMP_DC environ = after_last hyphen (MAILCHIMP_API_KEY environ)).
  { unfold MAILCHIMP_DC. rewrite Hkey.
    assert (Hget : environ_get environ "MAILCHIMP_DC" "<YOUR_DC>" = "<YOUR_DC>").
    { unfold environ_get. destruct Hdc as [-> | ->]; reflexivity. }
    rewrite Hget, String.eqb_refl. cbn [andb].
    destruct (MAILCHIMP_API_KEY environ =? "")%string eqn:He.
    - apply String.eqb_eq in He. rewrite He in Hkey. discriminate Hkey.
    - cbn [negb andb]. apply py_last_split. }
  rewrite H. apply after_last_decompose. exact Hkey.
Qed.

(** X10. A server that finds neither variable in its environment starts
    all the same: every request of every tool then goes to the host of the
    placeholder region with the placeholder key as password. *)
Theorem unconfigured_server_uses_placeholders (upstream : service) c log :
  environ "MAILCHIMP_API_KEY" = None ->
  environ "MAILCHIMP_DC" = None ->
  exists r endpoint,
    snd (invoke environ upstream c log) = (log ++ [r])%list
    /\ req_url r = "https://<YOUR_DC>.api.mailchimp.com/3.0" ++ endpoint
    /\ req_auth r = ("anystring", "<YOUR_API_KEY>").
Proof.
  intros Hkey Hdc.
  assert (Hk : MAILCHIMP_API_KEY environ = "<YOUR_API_KEY>").
  { unfold MAILCHIMP_API_KEY, environ_get. rewrite Hkey. reflexivity. }
  assert (Hb : BASE_URL environ = "https://<YOUR_DC>.api.mailchimp.com/3.0").
  { unfold BASE_URL, MAILCHIMP_DC. rewrite Hk. unfold environ_get. rewrite Hdc.
    reflexivity. }
  exists (outbound environ c).
  destruct c; eexists; (split; [apply invoke_log |]);
    cbn [outbound req_url req_auth]; rewrite Hk, Hb; split; reflexivity.
Qed.

End MoreConfigurationProperties.

(* ================================================================== *)
(** ** The client script: properties *)
(* ================================================================== *)

Section ClientProperties.

Variable lib : Client.session.

Lemma bind_await i {B} (k : json -> Client.Run B) trace :
  Client.bind (Client.await lib i) k trace =
  match lib (Client.interactions trace) i with
  | Client.Reply v => k v (trace ++ [Client.Sent i])%list
  | Client.Fails e =>
      (Client.Raised (Client.SessionError e), (trace ++ [Client.Sent i])%list)
  end.
Proof.
  unfold Client.bind, Client.await. destruct (lib _ i); reflexivity.
Qed.

Lemma bind_print line {B} (k : unit -> Client.Run B) trace :
  Client.bind (Client.print line) k trace = k tt (trace ++ [Client.Printed line])%list.
Proof. reflexivity. Qed.

Lemma bind_lift {A B} (o : Client.outcome A) (k : A -> Client.Run B) trace :
  Client.bind (Client.lift o) k trace =
  match o with
  | Client.Ok a => k a trace
  | Client.Raised x => (Client.Raised x, trace)
  end.
Proof. unfold Client.bind, Client.lift. destruct o; reflexivity. Qed.

Lemma bind_ret {A B} (a : A) (k : A -> Client.Run B) trace :
  Client.bind (Client.ret a) k trace = k a trace.
Proof. reflexivity. Qed.

Lemma bind_assoc {A B C} (m : Client.Run A) (k1 : A -> Client.Run B)
  (k2 : B -> Client.Run C) trace :
  Client.bind (Client.bind m k1) k2 trace
  = Client.bind m (fun a => Client.bind (k1 a) k2) trace.
Proof. unfold Client.bind. destruct (m trace) as [[a | x] trace']; reflexivity. Qed.

Lemma interactions_app t1 t2 :
  Client.interactions (t1 ++ t2) = (Client.interactions t1 ++ Client.interactions t2)%list.
Proof.
  induction t1 as [| [i | line] t1 IH]; cbn [Client.interactions app];
    [reflexivity | rewrite IH; reflexivity | exact IH].
Qed.

Lemma interactions_printed lines :
  Client.interactions (map Client.Printed lines) = [].
Proof. induction lines as [| line lines IH]; [reflexivity | exact IH]. Qed.

(** The built-ins never raise what only the session raises. *)
Lemma getitem_error v key x :
  Client.getitem v key = Client.Raised x -> forall e, x <> Client.SessionError e.
Proof.
  unfold Client.getitem. intros H e ->.
  destruct v as [ | | | | | | members]; try discriminate H.
  destruct (members_get key members); discriminate H.
Qed.

Lemma first_item_error v x :
  Client.first_item v = Client.Raised x -> forall e, x <> Client.SessionError e.
Proof.
  unfold Client.first_item. intros H e ->.
  destruct v as [ | | | | [| c s] | [| item items] | members]; discriminate H.
Qed.

Lemma campaign_line_error camp x :
  Client.campaign_line camp = Client.Raised x -> forall e, x <> Client.SessionError e.
Proof.
  unfold Client.campaign_line, Client.obind. intros H.
  destruct (Client.getitem camp "id") eqn:H1;
    [| injection H as <-; exact (getitem_error _ _ _ H1)].
  destruct (Client.getitem camp "name") eqn:H2;
    [| injection H as <-; exact (getitem_error _ _ _ H2)].
  destruct (Client.getitem camp "status") eqn:H3;
    [discriminate H | injection H as <-; exact (getitem_error _ _ _ H3)].
Qed.

Lemma first_id_error items x :
  Client.first_id items = Client.Raised x -> forall e, x <> Client.SessionError e.
Proof.
  unfold Client.first_id, Client.obind. intros H.
  destruct (Client.first_item items) eqn:H1;
    [exact (getitem_error _ _ _ H) | injection H as <-; exact (first_item_error _ _ H1)].
Qed.

Lemma collect_names_error tools x :
  Client.collect (fun tool => Client.getitem tool "name") tools = Client.Raised x ->
  forall e, x <> Client.SessionError e.
Proof.
  induction tools as [| tool tools IH]; cbn [Client.collect]; [discriminate |].
  unfold Client.obind. intros H.
  destruct (Client.getitem tool "name") eqn:H1;
    [| injection H as <-; exact (getitem_error _ _ _ H1)].
  destruct (Client.collect _ tools); [discriminate H |].
  injection H as <-. apply IH. reflexivity.
Qed.

Lemma tool_names_error tools_response x :
  Client.tool_names tools_response = Client.Raised x ->
  forall e, x <> Client.SessionError e.
Proof.
  unfold Client.tool_names, Client.obind. intros H.
  destruct (Client.get_default tools_response "tools" (JList [])) as [tools_list |] eqn:H1.
  - destruct (Client.iter tools_list) as [tools |] eqn:H2.
    + exact (collect_names_error tools x H).
    + injection H as <-. intros e ->.
      destruct tools_list; discriminate H2.
  - injection H as <-. intros e ->. destruct tools_response; discriminate H1.
Qed.

Lemma len_error v x :
  Client.len v = Client.Raised x -> forall e, x <> Client.SessionError e.
Proof. intros H e ->. destruct v; discriminate H. Qed.

Lemma iter_error v x :
  Client.iter v = Client.Raised x -> forall e, x <> Client.SessionError e.
Proof. intros H e ->. destruct v; discriminate H. Qed.

(** The loop over the campaigns prints the lines of the campaigns before
    the first one it cannot print, and sends nothing. *)
Lemma print_loop camps : forall trace,
  exists lines,
    snd (Client.for_each
           (fun camp => Client.bind (Client.lift (Client.campaign_line camp))
                          (fun line => Client.print line))
           camps trace)
    = (trace ++ map Client.Printed lines)%list
    /\ forall e,
         fst (Client.for_each
                (fun camp => Client.bind (Client.lift (Client.campaign_line camp))
                               (fun line => Client.print line))
                camps trace)
         <> Client.Raised (Client.SessionError e).
Proof.
  induction camps as [| camp camps IH]; intros trace; cbn [Client.for_each].
  - exists []. cbn [map]. rewrite app_nil_r. split; [reflexivity | discriminate].
  - rewrite bind_assoc, bind_lift.
    destruct (Client.campaign_line camp) as [line | x] eqn:Hline.
    + rewrite bind_print.
      destruct (IH (trace ++ [Client.Printed line])%list) as [lines [Htr Hne]].
      exists (line :: lines). cbn [map]. rewrite Htr, <- app_assoc.
      split; [reflexivity | exact Hne].
    + exists []. cbn [map snd fst]. rewrite app_nil_r. split; [reflexivity |].
      intros e He. injection He as ->.
      exact (campaign_line_error camp _ Hline e eq_refl).
Qed.


Lemma bind_run {A B} (m : Client.Run A) (k : A -> Client.Run B) trace :
  Client.bind m k trace =
  match m trace with
  | (Client.Ok a, trace') => k a trace'
  | (Client.Raised x, trace') => (Client.Raised x, trace')
  end.
Proof. reflexivity. Qed.

(** One step of the script: the next reply, value or branch is named and
    the run goes on in each case. *)
Ltac client_step :=
  cbv beta;
  lazymatch goal with
  | |- context [Client.bind (Client.bind ?m ?k1) ?k2 ?t] =>
      rewrite (bind_assoc m k1 k2 t)
  | |- context [Client.bind (Client.await lib ?i) ?k ?t] =>
      rewrite (bind_await i k t);
      let R := fresh "Hreply" in
      destruct (lib (Client.interactions t) i) eqn:R
  | |- context [Client.bind (Client.print ?s) ?k ?t] =>
      rewrite (bind_print s k t)
  | |- context [Client.bind (Client.lift ?o) ?k ?t] =>
      rewrite (bind_lift o k t);
      let E := fresh "Hval" in destruct o eqn:E
  | |- context [Client.bind (Client.for_each ?b ?xs) ?k ?t] =>
      rewrite (bind_run (Client.for_each b xs) k t);
      let lines := fresh "lines" in
      let Htr := fresh "Htrace" in
      let Hne := fresh "Hloop" in
      destruct (print_loop xs t) as [lines [Htr Hne]];
      destruct (Client.for_each b xs t) as [[[] | ?] ?];
      cbn [fst snd] in Htr, Hne; subst
  | |- context [Client.bind (if ?b then _ else _) ?k ?t] =>
      let T := fresh "Htruthy" in
      destruct b eqn:T; [| rewrite bind_ret]
  | |- context [(if ?b then _ else Client.ret tt) ?t] =>
      let T := fresh "Htruthy" in
      destruct b eqn:T
  end.

(** The replies are put in terms of what was sent before them. *)
Ltac tidy_replies :=
  repeat match goal with
         | H : lib (Client.interactions _) _ = _ |- _ =>
             progress (rewrite ?interactions_app, ?interactions_printed in H;
                       cbn [Client.interactions app] in H)
         end.

(** X12. Whatever the session answers, the script's interactions follow
    one fixed order: initialize, tools/list, list_campaigns, possibly one
    send_campaign, list_automations, possibly one start_automation.  What
    a run sends is a beginning of that sequence, so nothing is sent twice
    and no tool is called before the handshake. *)
Theorem client_follows_script :
  exists campaign_id workflow_id with_send rest,
    Client.script campaign_id workflow_id with_send
    = (Client.interactions (snd (Client.main lib [])) ++ rest)%list.
Proof.
  set (P := fun r : Client.outcome unit * list Client.event =>
              exists campaign_id workflow_id with_send rest,
                Client.script campaign_id workflow_id with_send
                = (Client.interactions (snd r) ++ rest)%list).
  change (P (Client.main lib [])). unfold Client.main.
  repeat client_step.
  all: subst P; cbv beta; unfold Client.print, Client.ret; cbn [snd];
    rewrite ?interactions_app, ?interactions_printed;
    cbn [Client.interactions app].
  all: solve [do 2 eexists; exists true; eexists; cbn; reflexivity
             | do 2 eexists; exists false; eexists; cbn; reflexivity].
  Unshelve. all: exact JNull.
Qed.

(** X13. When the run ends with an exception of the session, the failed
    interaction is the last event of the trace: nothing is sent or printed
    after it, and the exception is the one the session raised there. *)
Theorem client_stops_at_failure e :
  fst (Client.main lib []) = Client.Raised (Client.SessionError e) ->
  exists before i,
    snd (Client.main lib []) = (before ++ [Client.Sent i])%list
    /\ lib (Client.interactions before) i = Client.Fails e.
Proof.
  set (P := fun r : Client.outcome unit * list Client.event =>
              fst r = Client.Raised (Client.SessionError e) ->
              exists before i,
                snd r = (before ++ [Client.Sent i])%list
                /\ lib (Client.interactions before) i = Client.Fails e).
  change (P (Client.main lib [])). unfold Client.main.
  repeat client_step.
  all: subst P; cbv beta; unfold Client.print, Client.ret; cbn [fst snd]; intros H;
    try discriminate H; injection H as ->.
  all: try (eexists; eexists; split; [reflexivity | eassumption]).
  all: try (exfalso; eapply Hloop; reflexivity).
  all: exfalso;
    match goal with
    | Hv : _ = Client.Raised (Client.SessionError ?e') |- _ =>
        first [ exact (tool_names_error _ _ Hv e' eq_refl)
              | exact (len_error _ _ Hv e' eq_refl)
              | exact (iter_error _ _ Hv e' eq_refl)
              | exact (first_id_error _ _ Hv e' eq_refl) ]
    end.
Qed.

(** X14. The script asks for a campaign to be sent, or an automation to
    be started, only with the id of the first item of the listing it was
    just given, and only when that listing is truthy. *)
Theorem client_acts_on_first_item :
  (forall campaign_id,
     In (Client.Request
           (Client.tools_call_request "send_campaign" [("campaign_id", campaign_id)]))
        (Client.interactions (snd (Client.main lib []))) ->
     exists campaigns,
       lib [Client.Initialize; Client.Request Client.tools_list_request]
           (Client.Request (Client.tools_call_request "list_campaigns" []))
       = Client.Reply campaigns
       /\ truthy campaigns = true
       /\ Client.first_id campaigns = Client.Ok campaign_id)
  /\ (forall workflow_id,
        In (Client.Request
              (Client.tools_call_request "start_automation" [("workflow_id", workflow_id)]))
           (Client.interactions (snd (Client.main lib []))) ->
        exists sent automations,
          lib sent (Client.Request (Client.tools_call_request "list_automations" []))
          = Client.Reply automations
          /\ truthy automations = true
          /\ Client.first_id automations = Client.Ok workflow_id).
Proof.
  set (P := fun r : Client.outcome unit * list Client.event =>
              (forall campaign_id,
                 In (Client.Request
                       (Client.tools_call_request "send_campaign"
                          [("campaign_id", campaign_id)]))
                    (Client.interactions (snd r)) ->
                 exists campaigns,
                   lib [Client.Initialize; Client.Request Client.tools_list_request]
                       (Client.Request (Client.tools_call_request "list_campaigns" []))
                   = Client.Reply campaigns
                   /\ truthy campaigns = true
                   /\ Client.first_id campaigns = Client.Ok campaign_id)
              /\ (forall workflow_id,
                    In (Client.Request
                          (Client.tools_call_request "start_automation"
                             [("workflow_id", workflow_id)]))
                       (Client.interactions (snd r)) ->
                    exists sent automations,
                      lib sent
                          (Client.Request (Client.tools_call_request "list_automations" []))
                      = Client.Reply automations
                      /\ truthy automations = true
                      /\ Client.first_id automations = Client.Ok workflow_id)).
  change (P (Client.main lib [])). unfold Client.main.
  repeat client_step.
  all: tidy_replies.
  all: subst P; cbv beta; unfold Client.print, Client.ret; cbn [snd];
    rewrite ?interactions_app, ?interactions_printed;
    cbn [Client.interactions app].
  all: unfold Client.tools_list_request, Client.tools_call_request in *.
  all: split; intros wanted Hin; cbn [In] in Hin;
    repeat match type of Hin with
           | _ \/ _ => destruct Hin as [Hin | Hin]
           end;
    try contradiction; try discriminate Hin; injection Hin as <-.
  all: try (eexists; split; [eassumption | split; assumption]).
  all: eexists; eexists; split; [eassumption | split; assumption].
Qed.

(** A record of the server has the three keys the script prints. *)
Lemma record_line camp record :
  campaign_entry camp = Return record ->
  exists line, Client.campaign_line record = Client.Ok line.
Proof.
  intros H. destruct (campaign_entry_record camp record H) as [m [sm [_ [_ ->]]]].
  eexists. reflexivity.
Qed.

(** The loop prints one line for each item when every item has one. *)
Lemma print_loop_total items :
  Forall (fun item => exists line, Client.campaign_line item = Client.Ok line) items ->
  forall trace,
  exists lines,
    List.length lines = List.length items
    /\ Client.for_each
         (fun camp => Client.bind (Client.lift (Client.campaign_line camp))
                        (fun line => Client.print line))
         items trace
       = (Client.Ok tt, (trace ++ map Client.Printed lines)%list).
Proof.
  induction 1 as [| item items [line Hline] _ IH]; intros trace; cbn [Client.for_each].
  - exists []. cbn [map]. rewrite app_nil_r. split; reflexivity.
  - rewrite bind_assoc, bind_lift, Hline, bind_print.
    destruct (IH (trace ++ [Client.Printed line])%list) as [lines [Hlen Hrun]].
    exists (line :: lines). cbn [map List.length]. rewrite Hrun, <- app_assoc, Hlen.
    split; reflexivity.
Qed.

(** X15. The script accepts what the server's [list_campaigns] returns.
    When the session answers the listing with the records the server
    builds from a non-empty list of campaign objects, the script prints
    one line per record without an exception and then asks for the first
    campaign to be sent, with the id the service gave for it. *)
Theorem client_accepts_server_records v tools_response names m camps records :
  lib [] Client.Initialize = Client.Reply v ->
  lib [Client.Initialize] (Client.Request Client.tools_list_request)
  = Client.Reply tools_response ->
  Client.tool_names tools_response = Client.Ok names ->
  lib [Client.Initialize; Client.Request Client.tools_list_request]
      (Client.Request (Client.tools_call_request "list_campaigns" []))
  = Client.Reply (JList records) ->
  Forall2 (fun camp record => campaign_entry camp = Return record)
          (JDict m :: camps) records ->
  exists lines rest,
    List.length lines = List.length records
    /\ snd (Client.main lib [])
       = ([Client.Sent Client.Initialize;
           Client.Printed "MCP session initialized with Mailchimp server.";
           Client.Sent (Client.Request Client.tools_list_request);
           Client.Printed ("Tools exposed by server: " ++ py_repr (JList names));
           Client.Sent (Client.Request (Client.tools_call_request "list_campaigns" []));
           Client.Printed (Client.newline ++ "Retrieved "
                           ++ str_of_int (Z.of_nat (List.length records))
                           ++ " campaigns from Mailchimp:")]
          ++ map Client.Printed lines
          ++ Client.Sent
               (Client.Request
                  (Client.tools_call_request "send_campaign"
                     [("campaign_id", field m "id")]))
             :: rest)%list.
Proof.
  intros Hinit Htools Hnames Hcamps Hrecords.
  assert (Hall : Forall (fun item => exists line, Client.campaign_line item = Client.Ok line)
                        records).
  { revert Hrecords. apply Forall2_Forall_right. exact record_line. }
  inversion Hrecords as [| camp record camps' records' Hfirst Hrest]; subst.
  destruct (campaign_entry_record _ _ Hfirst) as [m' [sm [Hm [_ Hrecord]]]].
  injection Hm as <-.
  set (P := fun r : Client.outcome unit * list Client.event =>
              exists lines rest,
                List.length lines = List.length (record :: records')
                /\ snd r
                   = ([Client.Sent Client.Initialize;
                       Client.Printed "MCP session initialized with Mailchimp server.";
                       Client.Sent (Client.Request Client.tools_list_request);
                       Client.Printed ("Tools exposed by server: " ++ py_repr (JList names));
                       Client.Sent
                         (Client.Request (Client.tools_call_request "list_campaigns" []));
                       Client.Printed (Client.newline ++ "Retrieved "
                                       ++ str_of_int
                                            (Z.of_nat (List.length (record :: records')))
                                       ++ " campaigns from Mailchimp:")]
                      ++ map Client.Printed lines
                      ++ Client.Sent
                           (Client.Request
                              (Client.tools_call_request "send_campaign"
                                 [("campaign_id", field m "id")]))
                         :: rest)%list).
  change (P (Client.main lib [])). unfold Client.main.
  rewrite bind_await. cbn [Client.interactions]. rewrite Hinit.
  rewrite bind_print, bind_await.
  rewrite ?interactions_app. cbn [Client.interactions app]. rewrite Htools.
  rewrite bind_lift, Hnames, bind_print, bind_await.
  rewrite ?interactions_app. cbn [Client.interactions app]. rewrite Hcamps.
  rewrite bind_lift. cbn [Client.len]. rewrite bind_print, bind_lift.
  cbn [Client.iter]. rewrite bind_run.
  match goal with
  | |- context [Client.for_each ?b ?xs ?t] =>
      destruct (print_loop_total _ Hall t) as [lines [Hlen Hrun]]; rewrite Hrun
  end.
  cbn [truthy]. rewrite bind_assoc, bind_lift.
  assert (Hid : Client.first_id (JList (record :: records')) = Client.Ok (field m "id")).
  { rewrite Hrecord. reflexivity. }
  rewrite Hid.
  repeat client_step.
  all: subst P; cbv beta; unfold Client.print, Client.ret; cbn [snd];
    exists lines; eexists; (split; [exact Hlen |]);
    rewrite <- ?app_assoc; cbn [app]; reflexivity.
Qed.

(** What has length zero is empty to a loop and falsy to a test. *)
Lemma len_zero v :
  Client.len v = Client.Ok 0 -> Client.iter v = Client.Ok [] /\ truthy v = false.
Proof.
  destruct v as [ | | | | [| c s] | [| item items] | [| member members]];
    cbn [Client.len List.length String.length]; intros H;
    try discriminate H; try (split; reflexivity);
    injection H as H; lia.
Qed.

(** X16. On an account without campaigns and automations, that is when
    both listings are answered with something of length zero, the script
    runs to its end without an exception: it sends the handshake, the tool
    list and the two listings, prints its four lines, and asks for nothing
    to be sent or started. *)
Theorem client_empty_account v tools_response names campaigns automations :
  lib [] Client.Initialize = Client.Reply v ->
  lib [Client.Initialize] (Client.Request Client.tools_list_request)
  = Client.Reply tools_response ->
  Client.tool_names tools_response = Client.Ok names ->
  lib [Client.Initialize; Client.Request Client.tools_list_request]
      (Client.Request (Client.tools_call_request "list_campaigns" []))
  = Client.Reply campaigns ->
  Client.len campaigns = Client.Ok 0 ->
  lib [Client.Initialize; Client.Request Client.tools_list_request;
       Client.Request (Client.tools_call_request "list_campaigns" [])]
      (Client.Request (Client.tools_call_request "list_automations" []))
  = Client.Reply automations ->
  Client.len automations = Client.Ok 0 ->
  Client.main lib []
  = (Client.Ok tt,
     [Client.Sent Client.Initialize;
      Client.Printed "MCP session initialized with Mailchimp server.";
      Client.Sent (Client.Request Client.tools_list_request);
      Client.Printed ("Tools exposed by server: " ++ py_repr (JList names));
      Client.Sent (Client.Request (Client.tools_call_request "list_campaigns" []));
      Client.Printed (Client.newline ++ "Retrieved 0 campaigns from Mailchimp:");
      Client.Sent (Client.Request (Client.tools_call_request "list_automations" []));
      Client.Printed (Client.newline ++ "Found 0 automation workflows.")]).
Proof.
  intros Hinit Htools Hnames Hcamps Hlenc Hautos Hlena.
  destruct (len_zero campaigns Hlenc) as [Hiterc Hfalsyc].
  destruct (len_zero automations Hlena) as [_ Hfalsya].
  unfold Client.main.
  rewrite bind_await. cbn [Client.interactions]. rewrite Hinit.
  rewrite bind_print, bind_await.
  rewrite ?interactions_app. cbn [Client.interactions app]. rewrite Htools.
  rewrite bind_lift, Hnames, bind_print, bind_await.
  rewrite ?interactions_app. cbn [Client.interactions app]. rewrite Hcamps.
  rewrite bind_lift, Hlenc, bind_print, bind_lift, Hiterc.
  cbn [Client.for_each]. rewrite bind_ret, Hfalsyc, bind_ret, bind_await.
  rewrite ?interactions_app. cbn [Client.interactions app]. rewrite Hautos.
  rewrite bind_lift, Hlena, bind_print, Hfalsya.
  reflexivity.
Qed.

End ClientProperties.

(* ================================================================== *)
(** ** Concrete runs of the tools and of the client *)
(* ================================================================== *)

Lemma tool_returns_only_below_400_witness :
  exists resp,
    always no_content_response [] (outbound sample_environ (CallSendCampaign (JStr "42694e9e57")))
    = Responded resp
    /\ status_code resp < 400.
Proof.
  exact (tool_returns_only_below_400 sample_environ (always no_content_response)
           (CallSendCampaign (JStr "42694e9e57")) []
           (JStr "Campaign 42694e9e57 has been sent.") eq_refl).
Defined.

Lemma action_tools_ignore_body_witness :
  fst (invoke sample_environ (always no_content_response)
         (CallStartAutomation (JStr "b0a1c24f1a")) [])
  = Return (JStr "Automation workflow b0a1c24f1a started.").
Proof.
  exact (proj1 (action_tools_ignore_body sample_environ (always no_content_response)
                  (CallStartAutomation (JStr "b0a1c24f1a")) [] no_content_response
                  eq_refl eq_refl eq_refl)).
Defined.

Lemma parsing_tools_need_json_body_witness :
  fst (invoke sample_environ (always no_content_response) CallListCampaigns [])
  = Raise JSONDecodeError.
Proof.
  exact (parsing_tools_need_json_body sample_environ (always no_content_response)
           CallListCampaigns [] no_content_response eq_refl eq_refl eq_refl eq_refl).
Defined.

Lemma listing_missing_key_empty_witness :
  fst (list_campaigns sample_environ (always empty_account_response) []) = Return (JList [])
  /\ fst (list_automations sample_environ (always empty_account_response) [])
     = Return (JList []).
Proof.
  split.
  - exact (proj1 (listing_missing_key_empty sample_environ (always empty_account_response)
                    [] empty_account_response [("total_items", JInt 0)] eq_refl eq_refl)
             eq_refl eq_refl).
  - exact (proj2 (listing_missing_key_empty sample_environ (always empty_account_response)
                    [] empty_account_response [("total_items", JInt 0)] eq_refl eq_refl)
             eq_refl eq_refl).
Defined.

Lemma create_campaign_result_witness :
  fst (create_campaign sample_environ (always created_without_status_response)
         (JStr "a1b2c3d4e5") (JStr "Spring sale") (JStr "Shop") (JStr "shop@example.com") [])
  = Return (JDict [("id", JStr "3e06f4ec92"); ("status", JStr "created")]).
Proof.
  exact (proj1 (create_campaign_result sample_environ
                  (always created_without_status_response)
                  (JStr "a1b2c3d4e5") (JStr "Spring sale") (JStr "Shop")
                  (JStr "shop@example.com") [] created_without_status_response
                  eq_refl eq_refl)
           [("id", JStr "3e06f4ec92")] eq_refl).
Defined.

Lemma list_automations_preserves_sequence_witness :
  exists records,
    fst (list_automations sample_environ (always automations_response) [])
    = Return (JList records)
    /\ length records = length sample_automations
    /\ Forall2 (fun auto record =>
                  exists m sm,
                    auto = JDict m /\ settings_members m = Some sm
                    /\ record = JDict [("id", field m "id");
                                       ("name", expected_automation_name m sm);
                                       ("status", field m "status");
                                       ("emails_sent", field m "emails_sent")])
               sample_automations records.
Proof.
  refine (list_automations_preserves_sequence sample_environ (always automations_response)
            [] automations_response _ sample_automations
            eq_refl eq_refl eq_refl eq_refl eq_refl).
Defined.

Lemma listing_all_or_nothing_witness :
  exists msg,
    fst (list_campaigns sample_environ (always malformed_campaigns_response) [])
    = Raise (AttributeError msg).
Proof.
  refine (proj1 (listing_all_or_nothing sample_environ (always malformed_campaigns_response)
                   [] malformed_campaigns_response _
                   [JDict [("id", JStr "42694e9e57"); ("status", JStr "sent")];
                    JDict [("id", JStr "f6276207cc"); ("settings", JNull)]]
                   eq_refl eq_refl eq_refl)
            eq_refl eq_refl).
Defined.

Lemma http_error_non_object_body_witness :
  fst (invoke sample_environ (always array_error_response) CallListCampaigns [])
  = Raise (AttributeError ("'" ++ py_type_name (JList []) ++ "' object has no attribute 'get'")).
Proof.
  apply (http_error_non_object_body sample_environ (always array_error_response)
           CallListCampaigns [] array_error_response (JList []));
    [reflexivity | vm_compute; discriminate | reflexivity | discriminate].
Defined.

Lemma derived_region_is_key_suffix_witness :
  string_mem hyphen (MAILCHIMP_DC sample_environ) = false
  /\ exists pre,
       MAILCHIMP_API_KEY sample_environ = pre ++ String hyphen (MAILCHIMP_DC sample_environ).
Proof.
  exact (derived_region_is_key_suffix sample_environ (or_introl eq_refl) eq_refl).
Defined.

Lemma unconfigured_server_uses_placeholders_witness :
  exists r endpoint,
    snd (invoke unset_environ unreachable CallListCampaigns []) = [r]
    /\ req_url r = "https://<YOUR_DC>.api.mailchimp.com/3.0" ++ endpoint
    /\ req_auth r = ("anystring", "<YOUR_API_KEY>").
Proof.
  exact (unconfigured_server_uses_placeholders unset_environ unreachable
           CallListCampaigns [] eq_refl eq_refl).
Defined.

(** The script on the sample account: three lines, one campaign sent, no
    automation started. *)
Example client_sample_run :
  Client.interactions (snd (Client.main sample_session []))
  = [Client.Initialize;
     Client.Request Client.tools_list_request;
     Client.Request (Client.tools_call_request "list_campaigns" []);
     Client.Request (Client.tools_call_request "send_campaign"
                       [("campaign_id", JStr "42694e9e57")]);
     Client.Request (Client.tools_call_request "list_automations" [])]
  /\ fst (Client.main sample_session []) = Client.Ok tt.
Proof. split; vm_compute; reflexivity. Qed.

Lemma client_stops_at_failure_witness :
  exists before i,
    snd (Client.main dead_session []) = (before ++ [Client.Sent i])%list
    /\ dead_session (Client.interactions before) i = Client.Fails "Connection closed".
Proof.
  exact (client_stops_at_failure dead_session "Connection closed" eq_refl).
Defined.

Lemma client_acts_on_first_item_witness :
  exists campaigns,
    sample_session [Client.Initialize; Client.Request Client.tools_list_request]
      (Client.Request (Client.tools_call_request "list_campaigns" []))
    = Client.Reply campaigns
    /\ truthy campaigns = true
    /\ Client.first_id campaigns = Client.Ok (JStr "42694e9e57").
Proof.
  apply (proj1 (client_acts_on_first_item sample_session) (JStr "42694e9e57")).
  vm_compute. right. right. right. left. reflexivity.
Defined.

Lemma client_accepts_server_records_witness :
  exists lines rest,
    List.length lines = List.length sample_campaign_records
    /\ snd (Client.main sample_session [])
       = ([Client.Sent Client.Initialize;
           Client.Printed "MCP session initialized with Mailchimp server.";
           Client.Sent (Client.Request Client.tools_list_request);
           Client.Printed
             ("Tools exposed by server: "
              ++ py_repr (JList [JStr "list_campaigns"; JStr "create_campaign";
                                 JStr "send_campaign"; JStr "list_automations";
                                 JStr "start_automation"]));
           Client.Sent (Client.Request (Client.tools_call_request "list_campaigns" []));
           Client.Printed (Client.newline ++ "Retrieved "
                           ++ str_of_int (Z.of_nat (List.length sample_campaign_records))
                           ++ " campaigns from Mailchimp:")]
          ++ map Client.Printed lines
          ++ Client.Sent
               (Client.Request
                  (Client.tools_call_request "send_campaign"
                     [("campaign_id",
                       field [("id", JStr "42694e9e57"); ("status", JStr "sent");
                              ("emails_sent", JInt 120);
                              ("settings", JDict [("subject_line", JStr "Spring sale");
                                                  ("title", JStr "Spring newsletter")])]
                             "id")]))
             :: rest)%list.
Proof.
  refine (client_accepts_server_records sample_session JNull sample_tools_reply _ _
            (tl sample_campaigns) sample_campaign_records
            eq_refl eq_refl eq_refl eq_refl _).
  repeat constructor.
Defined.

Lemma client_empty_account_witness :
  Client.main empty_account_session []
  = (Client.Ok tt,
     [Client.Sent Client.Initialize;
      Client.Printed "MCP session initialized with Mailchimp server.";
      Client.Sent (Client.Request Client.tools_list_request);
      Client.Printed
        ("Tools exposed by server: "
         ++ py_repr (JList [JStr "list_campaigns"; JStr "create_campaign";
                            JStr "send_campaign"; JStr "list_automations";
                            JStr "start_automation"]));
      Client.Sent (Client.Request (Client.tools_call_request "list_campaigns" []));
      Client.Printed (Client.newline ++ "Retrieved 0 campaigns from Mailchimp:");
      Client.Sent (Client.Request (Client.tools_call_request "list_automations" []));
      Client.Printed (Client.newline ++ "Found 0 automation workflows.")]).
Proof.
  exact (client_empty_account empty_account_session JNull sample_tools_reply _
           (JList []) (JList []) eq_refl eq_refl eq_refl eq_refl eq_refl eq_refl eq_refl).
Defined.
